(** * MHC database loader ([data_loader.py]): a shallow embedding

    The loader reads a fixed set of CSV exports with pandas, derives a
    participant key from free-text names, resolves columns by keyword and
    writes one table per entity into an SQLite store.

    A Python [str] is modelled as the [string] of its UTF-8 bytes.
    Searching, replacing and splitting on ASCII patterns act on the bytes;
    [str.strip] removes the encodings of the Unicode white space;
    [str.lower] and [str.upper], which follow the Unicode tables, are
    parameters known on ASCII text.  The pandas and sqlite3 calls the loader
    makes are modelled by what they do on the values the loader hands them;
    the numeric and date parsers of pandas are parameters too. *)

From Stdlib Require Import ZArith Ascii String List Lia Bool DecimalString.
From stdpp Require Import base option list strings gmap fin_maps.

(** ** Python [str] operations *)

Module PyStr.

Definition code (c : ascii) : N := N_of_ascii c.

(** The case mappings on one ASCII character. *)
Definition ascii_lower_char (c : ascii) : ascii :=
  if ((65 <=? code c) && (code c <=? 90))%N then ascii_of_N (code c + 32) else c.

Definition ascii_upper_char (c : ascii) : ascii :=
  if ((97 <=? code c) && (code c <=? 122))%N then ascii_of_N (code c - 32) else c.

Fixpoint map_chars (f : ascii -> ascii) (s : string) : string :=
  match s with
  | EmptyString => EmptyString
  | String c r => String (f c) (map_chars f r)
  end.

Definition ascii_lower : string -> string := map_chars ascii_lower_char.
Definition ascii_upper : string -> string := map_chars ascii_upper_char.

(** Text made of ASCII characters only. *)
Fixpoint is_ascii (s : string) : bool :=
  match s with
  | EmptyString => true
  | String c r => (code c <? 128)%N && is_ascii r
  end.

(** [sub in s]. *)
Fixpoint contains (sub s : string) : bool :=
  match s with
  | EmptyString => String.prefix sub EmptyString
  | String _ r => String.prefix sub s || contains sub r
  end.

(** [s.replace(old, new)]: non-overlapping occurrences, left to right.
    [skip] counts the characters of a matched occurrence still to be
    passed over. *)
Fixpoint replace_go (old new : string) (skip : nat) (s : string) : string :=
  match s with
  | EmptyString => EmptyString
  | String c r =>
      match skip with
      | S k => replace_go old new k r
      | O =>
          if String.prefix old s
          then new +:+ replace_go old new (String.length old - 1) r
          else String c (replace_go old new 0 r)
      end
  end.

Fixpoint intersperse_after (new s : string) : string :=
  match s with
  | EmptyString => EmptyString
  | String c r => String c (new +:+ intersperse_after new r)
  end.

Definition replace (old new s : string) : string :=
  match old with
  | EmptyString => new +:+ intersperse_after new s
  | _ => replace_go old new 0 s
  end.

(** The UTF-8 bytes of a code point below [U+10000]. *)
Definition utf8 (cp : N) : list ascii :=
  if (cp <? 128)%N then [ascii_of_N cp]
  else if (cp <? 2048)%N
       then [ascii_of_N (192 + cp / 64); ascii_of_N (128 + cp mod 64)]
       else [ascii_of_N (224 + cp / 4096); ascii_of_N (128 + (cp / 64) mod 64);
             ascii_of_N (128 + cp mod 64)].

(** The code points [str.strip()] removes, those of [str.isspace]:
    U+0009-000D, U+001C-0020, U+0085, U+00A0, U+1680, U+2000-200A, U+2028,
    U+2029, U+202F, U+205F and U+3000. *)
Definition whitespace_points : list N :=
  [9; 10; 11; 12; 13; 28; 29; 30; 31; 32; 133; 160; 5760;
   8192; 8193; 8194; 8195; 8196; 8197; 8198; 8199; 8200; 8201; 8202;
   8232; 8233; 8239; 8287; 12288]%N.

Definition whitespace : list (list ascii) := map utf8 whitespace_points.

(** The text after its first character, when that is one of [ws]. *)
Definition drop_space (ws : list (list ascii)) (l : list ascii)
  : option (list ascii) :=
  match List.find (fun w => bool_decide (w `prefix_of` l)) ws with
  | Some w => Some (drop (length w) l)
  | None => None
  end.

(** Leading characters of [ws] are dropped one by one; [fuel] bounds the
    number of steps. *)
Fixpoint lstrip_go (ws : list (list ascii)) (fuel : nat) (l : list ascii)
  : list ascii :=
  match fuel with
  | O => l
  | S n =>
      match drop_space ws l with
      | Some r => lstrip_go ws n r
      | None => l
      end
  end.

Definition lstrip_list (l : list ascii) : list ascii :=
  lstrip_go whitespace (length l) l.

(** The same from the end, on the reversed text. *)
Definition rstrip_list (l : list ascii) : list ascii :=
  rev (lstrip_go (map (@rev ascii) whitespace) (length l) (rev l)).

Definition strip_list (l : list ascii) : list ascii := lstrip_list (rstrip_list l).

(** [s.strip()]. *)
Definition strip (s : string) : string :=
  string_of_list_ascii (strip_list (list_ascii_of_string s)).

(** [s.split(sep)] for a non-empty separator; [cur] is the current piece,
    reversed. *)
Fixpoint split_go (sep : string) (skip : nat) (cur : string) (s : string)
  : list string :=
  match s with
  | EmptyString => [String.rev cur]
  | String c r =>
      match skip with
      | S k => split_go sep k cur r
      | O =>
          if String.prefix sep s
          then String.rev cur :: split_go sep (String.length sep - 1) EmptyString r
          else split_go sep 0 (String c cur) r
      end
  end.

Definition split (sep s : string) : list string := split_go sep 0 EmptyString s.

End PyStr.

(** [str.lower] and [str.upper].  They follow the Unicode case tables and
    are not character-wise in general; on ASCII text they map the letters
    A-Z and a-z and leave every other character. *)
Class Unicode := {
  str_lower : string -> string;
  str_upper : string -> string;
  str_lower_ascii :
    forall s, PyStr.is_ascii s = true -> str_lower s = PyStr.ascii_lower s;
  str_upper_ascii :
    forall s, PyStr.is_ascii s = true -> str_upper s = PyStr.ascii_upper s;
}.

(** ** Cells and the external pandas functions *)

(** A cell of a frame: missing ([None], [NaN], [NaT]), text, or a non-text
    scalar (an int64, float64 or bool value) of type [number]. *)
Inductive cell (number : Type) : Type :=
| NA
| Str (s : string)
| Num (n : number).

Arguments NA {number}.
Arguments Str {number} s.
Arguments Num {number} n.

#[global] Instance cell_eq_dec {number} `{EqDecision number} :
  EqDecision (cell number).
Proof. solve_decision. Defined.

(** What the loader uses of pandas on scalars and columns.  Timestamps are
    nanoseconds since the epoch, as in [datetime64[ns]]. *)
Class Pandas := {
  number : Type;
  number_eq_dec :: EqDecision number;
  (** [str(x)] of a non-text scalar, as [astype(str)] prints it *)
  num_str : number -> string;
  (** the scalar holding an integer *)
  of_int : Z -> number;
  (** [x == 1.0] *)
  is_one : number -> bool;
  (** [pd.to_numeric(_, errors='coerce')] on one cell; [None] is NaN *)
  to_numeric : cell number -> option number;
  (** [pd.to_datetime(_, errors='coerce')] on a column; [None] is NaT *)
  to_datetime : list (cell number) -> list (option Z);
  (** [strftime('%Y-%m-%d')] of a timestamp *)
  strftime : Z -> string;
}.

Abbreviation Cell := (cell number).
Abbreviation Row := (gmap string (cell number)).

Section Helpers.

Context `{Unicode} {number : Type}.
Abbreviation cell := (cell number).

(** [pd.isna] on a scalar. *)
Definition isna (c : cell) : bool :=
  match c with NA => true | _ => false end.

Definition notna (c : cell) : bool := negb (isna c).

(** [isinstance(x, str)]. *)
Definition is_str (c : cell) : bool :=
  match c with Str _ => true | _ => false end.

(** ** Helper functions of the loader *)

(** [create_participant_id(name)]; [None] is Python's [None]. *)
Definition create_participant_id (name : cell) : option string :=
  if isna name || negb (is_str name) then None
  else
    match name with
    | Str s =>
        Some (PyStr.strip
                (PyStr.replace "/" ""
                   (PyStr.replace "." ""
                      (PyStr.replace "," "-"
                         (PyStr.replace " " "" (str_lower s))))))
    | _ => None
    end.

(** The inner loop of [find_column_by_keywords]: does some keyword match
    the upper-cased header? *)
Fixpoint keyword_hit (exact_match : bool) (col_upper : string)
    (keywords : list string) : bool :=
  match keywords with
  | [] => false
  | keyword :: rest =>
      (if exact_match
       then bool_decide (col_upper = str_upper keyword)
       else PyStr.contains (str_upper keyword) col_upper)
      || keyword_hit exact_match col_upper rest
  end.

(** [find_column_by_keywords(df, keywords, exact_match)] over
    [df.columns]. *)
Fixpoint find_column_by_keywords (columns : list string)
    (keywords : list string) (exact_match : bool) : option string :=
  match columns with
  | [] => None
  | col :: rest =>
      if keyword_hit exact_match (str_upper col) keywords
      then Some col
      else find_column_by_keywords rest keywords exact_match
  end.

End Helpers.

(** ** Exceptions, files and the steps of an extractor *)

Inductive exn : Type :=
| KeyError (key : string)
| AttributeError
| ValueError
| OperationalError
| ReadError.

(** What [pd.read_csv] finds under a file name. *)
Inductive csv (A : Type) : Type :=
| FileNotFound
| Unreadable
| Csv (df : A).

Arguments FileNotFound {A}.
Arguments Unreadable {A}.
Arguments Csv {A} df.

(** A step of an extractor: go on with a value, [return] early, or raise. *)
Inductive step (A : Type) : Type :=
| Next (a : A)
| Return
| Raise (e : exn).

Arguments Next {A} a.
Arguments Return {A}.
Arguments Raise {A} e.

(** ** Frames

    A [DataFrame] holds its column labels in order and its rows; a row maps
    a label to the cell it holds.  The frames the loader reads are taken
    after [df.columns = df.columns.str.strip()], their labels pairwise
    distinct. *)

Section Frames.

Context `{Unicode} `{Pandas}.

Record DataFrame := mkFrame {
  columns : list string;
  rows : list Row;
}.

Definition getcol (r : Row) (c : string) : Cell := default NA (r !! c).

(** [df[c]] as the list of its values. *)
Definition col_values (df : DataFrame) (c : string) : list Cell :=
  map (fun r => getcol r c) (rows df).

(** [df[c] = vals]: the column is replaced, or appended when new. *)
Definition set_column (df : DataFrame) (c : string) (vals : list Cell)
  : DataFrame :=
  {| columns := if bool_decide (c ∈ columns df) then columns df
                else columns df ++ [c];
     rows := imap (fun i r => <[c := default NA (vals !! i)]> r) (rows df) |}.

(** [df[c] = f(row)] computed row by row. *)
Definition assign (df : DataFrame) (c : string) (f : Row -> Cell) : DataFrame :=
  set_column df c (map f (rows df)).

(** [df[mask]]. *)
Definition filter_rows (keep : Row -> bool) (df : DataFrame) : DataFrame :=
  {| columns := columns df; rows := List.filter keep (rows df) |}.

(** [df.dropna(subset=cols)]. *)
Definition dropna (subset : list string) (df : DataFrame) : DataFrame :=
  filter_rows (fun r => forallb (fun c => notna (getcol r c)) subset) df.

Definition restrict (cols : list string) (r : Row) : Row :=
  filter (fun kv => kv.1 ∈ cols) r.

(** [df.drop_duplicates(subset=cols)], the first of each group kept;
    [seen] holds the keys already met. *)
Fixpoint drop_duplicates_go (cols : list string) (seen : list (list Cell))
    (l : list Row) : list Row :=
  match l with
  | [] => []
  | r :: rest =>
      let k := map (getcol r) cols in
      if bool_decide (k ∈ seen) then drop_duplicates_go cols seen rest
      else r :: drop_duplicates_go cols (k :: seen) rest
  end.

Definition drop_duplicates (subset : list string) (df : DataFrame) : DataFrame :=
  {| columns := columns df;
     rows := drop_duplicates_go subset [] (rows df) |}.

(** [df.rename(columns={old: new})]. *)
Definition rename_row (old new : string) (r : Row) : Row :=
  match r !! old with
  | Some v => <[new := v]> (delete old r)
  | None => r
  end.

Definition rename_column (old new : string) (df : DataFrame) : DataFrame :=
  {| columns := map (fun c => if bool_decide (c = old) then new else c) (columns df);
     rows := map (rename_row old new) (rows df) |}.

(** [pd.concat(frames, ignore_index=True)] of frames with the same
    columns. *)
Definition concat (cols : list string) (frames : list DataFrame) : DataFrame :=
  {| columns := cols; rows := flat_map rows frames |}.

(** [pd.merge(left, right, on=on, how='left')]; both frames have the key
    columns.  A column the two share outside the key gets the suffixes
    [_x] and [_y]; missing keys match each other. *)
Definition left_label (left right : DataFrame) (on : list string) (c : string)
  : string :=
  if bool_decide (c ∈ columns right) && negb (bool_decide (c ∈ on))
  then c +:+ "_x" else c.

Definition right_label (left right : DataFrame) (on : list string) (c : string)
  : string :=
  if bool_decide (c ∈ columns left) then c +:+ "_y" else c.

Definition merged_row (left right : DataFrame) (on : list string)
    (l : Row) (r : option Row) : Row :=
  let right_cols := List.filter (fun c => negb (bool_decide (c ∈ on))) (columns right) in
  foldr (fun c acc => <[left_label left right on c := getcol l c]> acc)
    (foldr (fun c acc =>
              <[right_label left right on c :=
                  match r with Some r => getcol r c | None => NA end]> acc)
       ∅ right_cols)
    (columns left).

Definition merge_left (left right : DataFrame) (on : list string) : DataFrame :=
  {| columns :=
       map (left_label left right on) (columns left)
       ++ map (right_label left right on)
            (List.filter (fun c => negb (bool_decide (c ∈ on))) (columns right));
     rows :=
       flat_map
         (fun l =>
            match List.filter
                    (fun r => bool_decide (map (getcol l) on = map (getcol r) on))
                    (rows right) with
            | [] => [merged_row left right on l None]
            | ms => map (fun r => merged_row left right on l (Some r)) ms
            end)
         (rows left) |}.

(** ** Columns of values *)

(** [astype(str)] on one cell: a missing cell of a CSV column is NaN and
    prints as [nan]. *)
Definition astype_str (c : Cell) : string :=
  match c with
  | NA => "nan"
  | Str s => s
  | Num n => num_str n
  end.

(** [col.astype(str).str.strip()] on one cell. *)
Definition str_stripped (c : Cell) : Cell := Str (PyStr.strip (astype_str c)).

(** [col.str.strip()] on one cell of an object column: text is stripped,
    anything else becomes NaN. *)
Definition dot_str (f : string -> string) (c : Cell) : Cell :=
  match c with
  | Str s => Str (f s)
  | _ => NA
  end.

(** [pd.to_datetime(col, errors='coerce').dt.strftime('%Y-%m-%d')]. *)
Definition date_text (o : option Z) : Cell :=
  match o with
  | Some t => Str (strftime t)
  | None => NA
  end.

Definition normalized_dates (vals : list Cell) : list Cell :=
  map date_text (to_datetime vals).

(** [pd.to_numeric(col, errors='coerce')] on one cell. *)
Definition numeric (c : Cell) : Cell :=
  match to_numeric c with
  | Some n => Num n
  | None => NA
  end.

(** The value [create_participant_id] leaves in a frame. *)
Definition pid_cell (c : Cell) : Cell :=
  match create_participant_id c with
  | Some s => Str s
  | None => NA
  end.

(** Truth value of [if col:] for a column name or [None]. *)
Definition truthy (o : option string) : bool :=
  match o with
  | Some (String _ _) => true
  | _ => false
  end.

(** ** The writes of an extractor *)

(** An extractor run: the [to_sql] calls made so far, in order, and how
    the run goes on. *)
Definition Load (A : Type) : Type := (list (string * DataFrame) * step A)%type.

Definition load_bind {A B} (m : Load A) (k : A -> Load B) : Load B :=
  match m with
  | (w, Next a) => let '(w', s) := k a in ((w ++ w')%list, s)
  | (w, Return) => (w, Return)
  | (w, Raise e) => (w, Raise e)
  end.

#[global] Instance load_mbind : MBind Load :=
  fun A B k m => load_bind m k.

Definition next {A} (a : A) : Load A := ([], Next a).
Definition ret {A} : Load A := ([], Return).
Definition raise {A} (e : exn) : Load A := ([], Raise e).

(** [df.to_sql(name, conn, if_exists='replace', ...)]. *)
Definition to_sql (name : string) (df : DataFrame) : Load unit :=
  ([(name, df)], Next tt).

(** [pd.read_csv(file)] inside [try: ... except FileNotFoundError: return]. *)
Definition read_or_return {A} (f : csv A) : Load A :=
  match f with
  | FileNotFound => ret
  | Unreadable => raise ReadError
  | Csv df => next df
  end.

(** [df[cols]]: [KeyError] on the first label the frame lacks. *)
Definition select (cols : list string) (df : DataFrame) : Load DataFrame :=
  match List.find (fun c => negb (bool_decide (c ∈ columns df))) cols with
  | Some c => raise (KeyError c)
  | None => next {| columns := cols; rows := map (restrict cols) (rows df) |}
  end.

(** [df[c] = None] when the column was not resolved, else [df[c] = vals]. *)
Definition set_optional (df : DataFrame) (c : string) (src : option string)
    (vals : string -> list Cell) : DataFrame :=
  match src with
  | Some (String a s) => set_column df c (vals (String a s))
  | _ => assign df c (fun _ => NA)
  end.

End Frames.

(** ** The extractors *)

Section Extractors.

Context `{Unicode} `{Pandas}.

Definition day_ns : Z := 86400000000000.

(** [(end_dates - start_dates).dt.days] on one row. *)
Definition days_between (start_date end_date : option Z) : Cell :=
  match start_date, end_date with
  | Some s, Some e => Num (of_int ((e - s) / day_ns))
  | _, _ => NA
  end.

(** *** [load_mental_health_data] *)

Definition load_mental_health_data (file : csv DataFrame) : Load unit :=
  df_mh ← read_or_return file;
  match find_column_by_keywords (columns df_mh) ["NAME"; "PARTICIPANT"] false with
  | None => ret
  | Some name_col =>
      let df_mh :=
        assign df_mh "Participant_ID" (fun r => pid_cell (getcol r name_col)) in
      let diag_code_col :=
        find_column_by_keywords (columns df_mh) ["DIAGNOSIS"; "CODE"; "DX"] false in
      let diag_desc_col :=
        find_column_by_keywords (columns df_mh)
          ["DIAGNOSIS"; "DESCRIPTION"; "CONDITION"] false in
      let date_col :=
        find_column_by_keywords (columns df_mh) ["DATE"; "ASSESSMENT"; "ENTRY"] false in
      match diag_code_col with
      | None => ret
      | Some diag_code_col =>
          let df_mh_clean :=
            assign df_mh "Diagnosis_Code"
              (fun r => str_stripped (getcol r diag_code_col)) in
          let df_mh_clean :=
            set_optional df_mh_clean "Diagnosis_Description" diag_desc_col
              (fun c => map str_stripped (col_values df_mh_clean c)) in
          let df_mh_clean :=
            set_optional df_mh_clean "Assessment_Date" date_col
              (fun c => normalized_dates (col_values df_mh_clean c)) in
          df_mh_to_insert ←
            select ["Participant_ID"; "Diagnosis_Code"; "Diagnosis_Description";
                    "Assessment_Date"] df_mh_clean;
          let df_mh_to_insert :=
            dropna ["Diagnosis_Code"; "Participant_ID"] df_mh_to_insert in
          to_sql "PARTICIPANT_DIAGNOSIS" df_mh_to_insert
      end
  end.

(** *** [load_risk_assessments] *)

Definition load_risk_assessments (file : csv DataFrame) : Load unit :=
  df_risk ← read_or_return file;
  match find_column_by_keywords (columns df_risk) ["NAME"; "PARTICIPANT"] false with
  | None => ret
  | Some name_col =>
      let df_risk :=
        assign df_risk "Participant_ID" (fun r => pid_cell (getcol r name_col)) in
      let date_col :=
        find_column_by_keywords (columns df_risk) ["DATE"; "ASSESSMENT"] false in
      let score_col :=
        find_column_by_keywords (columns df_risk)
          ["SCORE"; "LS/CMI"; "LS CMI"; "RISK"] false in
      let category_col :=
        find_column_by_keywords (columns df_risk)
          ["CATEGORY"; "LEVEL"; "RISK LEVEL"] false in
      let df_risk_clean := df_risk in
      let df_risk_clean :=
        set_optional df_risk_clean "Assessment_Date" date_col
          (fun c => normalized_dates (col_values df_risk_clean c)) in
      let df_risk_clean :=
        set_optional df_risk_clean "Risk_Score" score_col
          (fun c => map numeric (col_values df_risk_clean c)) in
      let df_risk_clean :=
        set_optional df_risk_clean "Risk_Category" category_col
          (fun c => map str_stripped (col_values df_risk_clean c)) in
      df_risk_to_insert ←
        select ["Participant_ID"; "Assessment_Date"; "Risk_Score"; "Risk_Category"]
          df_risk_clean;
      let df_risk_to_insert := dropna ["Participant_ID"] df_risk_to_insert in
      to_sql "RISK_ASSESSMENT" df_risk_to_insert
  end.

(** *** [load_jail_data] *)

(** The block that derives [Days_Incarcerated] from the two date
    columns. *)
Definition derive_days (df_jail_clean : DataFrame) : DataFrame :=
  if negb (bool_decide ("Days_Incarcerated" ∈ columns df_jail_clean))
     || forallb isna (col_values df_jail_clean "Days_Incarcerated")
  then
    if bool_decide ("Start_Date" ∈ columns df_jail_clean)
       && bool_decide ("End_Date" ∈ columns df_jail_clean)
    then
      let start_dates := to_datetime (col_values df_jail_clean "Start_Date") in
      let end_dates := to_datetime (col_values df_jail_clean "End_Date") in
      set_column df_jail_clean "Days_Incarcerated"
        (zip_with days_between start_dates end_dates)
    else df_jail_clean
  else df_jail_clean.

(** The frame [df_jail_clean] after the four [if ..._col: ... else: ...]
    blocks; [df_jail] already holds [Participant_ID]. *)
Definition jail_columns (df_jail : DataFrame) : DataFrame :=
  let start_date_col :=
    find_column_by_keywords (columns df_jail)
      ["START"; "BEGIN"; "ADMISSION"; "FROM"] false in
  let end_date_col :=
    find_column_by_keywords (columns df_jail)
      ["END"; "RELEASE"; "TO"; "DISCHARGE"] false in
  let days_col :=
    find_column_by_keywords (columns df_jail)
      ["DAYS"; "LENGTH"; "DURATION"] false in
  let cost_col :=
    find_column_by_keywords (columns df_jail)
      ["COST"; "AMOUNT"; "FEE"; "CHARGE"] false in
  let df_jail_clean := df_jail in
  let df_jail_clean :=
    set_optional df_jail_clean "Start_Date" start_date_col
      (fun c => normalized_dates (col_values df_jail_clean c)) in
  let df_jail_clean :=
    set_optional df_jail_clean "End_Date" end_date_col
      (fun c => normalized_dates (col_values df_jail_clean c)) in
  let df_jail_clean :=
    set_optional df_jail_clean "Days_Incarcerated" days_col
      (fun c => map numeric (col_values df_jail_clean c)) in
  set_optional df_jail_clean "Cost" cost_col
    (fun c => map numeric (col_values df_jail_clean c)).

Definition jail_cols : list string :=
  ["Participant_ID"; "Start_Date"; "End_Date"; "Days_Incarcerated"; "Cost"].

Definition load_jail_data (file : csv DataFrame) : Load unit :=
  df_jail ← read_or_return file;
  match find_column_by_keywords (columns df_jail) ["NAME"; "PARTICIPANT"] false with
  | None => ret
  | Some name_col =>
      let df_jail :=
        assign df_jail "Participant_ID" (fun r => pid_cell (getcol r name_col)) in
      let df_jail_clean := jail_columns df_jail in
      let df_jail_clean := derive_days df_jail_clean in
      df_jail_to_insert ← select jail_cols df_jail_clean;
      let df_jail_to_insert := dropna ["Participant_ID"] df_jail_to_insert in
      to_sql "JAIL_DATA" df_jail_to_insert
  end.

(** *** [load_treatment_episodes] *)

Definition treatment_files : list string :=
  ["MHC_Treatment_MH_FY23.csv"; "MHC_Treatment_MH_FY24.csv";
   "MHC_Treatment_MH_FY25.csv"; "MHC_Treatment_CD_FY23.csv";
   "MHC_Treatment_CD_FY24.csv"; "MHC_Treatment_CD_FY25.csv";
   "MHC_Treatment_Historical.csv"].

(** The [if 'MH' in file: ... elif 'CD' in file: ... else: ...] chain. *)
Definition treatment_type (file : string) : string :=
  if PyStr.contains "MH" file then "Mental Health"
  else if PyStr.contains "CD" file then "Chemical Dependency"
  else "Unknown".

Definition treatment_cols : list string :=
  ["Participant_ID"; "Treatment_Type"; "Start_Date"; "End_Date"; "Service_Type";
   "Provider"; "Outcome"].

(** The body of the loop over the files; [None] is a [continue] that
    appended nothing ([except Exception] included). *)
Definition treatment_of_file (file : string) (content : csv DataFrame)
  : option DataFrame :=
  match content with
  | FileNotFound => None
  | Unreadable => None
  | Csv df_treatment =>
      match find_column_by_keywords (columns df_treatment)
              ["NAME"; "PARTICIPANT"; "CLIENT"] false with
      | None => None
      | Some name_col =>
          let df_treatment :=
            assign df_treatment "Participant_ID"
              (fun r => pid_cell (getcol r name_col)) in
          let start_date_col :=
            find_column_by_keywords (columns df_treatment)
              ["START"; "BEGIN"; "ADMISSION"; "DATE"] false in
          let end_date_col :=
            find_column_by_keywords (columns df_treatment)
              ["END"; "COMPLETION"; "DISCHARGE"] false in
          let type_col :=
            find_column_by_keywords (columns df_treatment)
              ["TYPE"; "SERVICE"; "TREATMENT"; "MODALITY"] false in
          let provider_col :=
            find_column_by_keywords (columns df_treatment)
              ["PROVIDER"; "FACILITY"; "AGENCY"] false in
          let outcome_col :=
            find_column_by_keywords (columns df_treatment)
              ["OUTCOME"; "RESULT"; "STATUS"; "COMPLETION"] false in
          let df_treatment_clean := df_treatment in
          let df_treatment_clean :=
            assign df_treatment_clean "Treatment_Type"
              (fun _ => Str (treatment_type file)) in
          let df_treatment_clean :=
            set_optional df_treatment_clean "Start_Date" start_date_col
              (fun c => normalized_dates (col_values df_treatment_clean c)) in
          let df_treatment_clean :=
            set_optional df_treatment_clean "End_Date" end_date_col
              (fun c => normalized_dates (col_values df_treatment_clean c)) in
          let df_treatment_clean :=
            set_optional df_treatment_clean "Service_Type" type_col
              (fun c => map str_stripped (col_values df_treatment_clean c)) in
          let df_treatment_clean :=
            set_optional df_treatment_clean "Provider" provider_col
              (fun c => map str_stripped (col_values df_treatment_clean c)) in
          let df_treatment_clean :=
            set_optional df_treatment_clean "Outcome" outcome_col
              (fun c => map str_stripped (col_values df_treatment_clean c)) in
          match select treatment_cols df_treatment_clean with
          | (_, Next df_treatment_selected) =>
              Some (dropna ["Participant_ID"] df_treatment_selected)
          | _ => None
          end
      end
  end.

Definition load_treatment_episodes (files : string -> csv DataFrame) : Load unit :=
  let all_treatments :=
    omap (fun file => treatment_of_file file (files file)) treatment_files in
  match all_treatments with
  | [] => next tt
  | _ => to_sql "TREATMENT_EPISODE" (concat treatment_cols all_treatments)
  end.

(** *** [load_psychosocial_assessments] *)

Definition load_psychosocial_assessments (file : csv DataFrame) : Load unit :=
  df_psych ← read_or_return file;
  match find_column_by_keywords (columns df_psych)
          ["NAME"; "PARTICIPANT"; "CLIENT"] false with
  | None => ret
  | Some name_col =>
      let df_psych :=
        assign df_psych "Participant_ID" (fun r => pid_cell (getcol r name_col)) in
      let date_col :=
        find_column_by_keywords (columns df_psych)
          ["DATE"; "ASSESSMENT"; "COMPLETED"] false in
      let df_psych_clean :=
        set_optional df_psych "Assessment_Date" date_col
          (fun c => normalized_dates (col_values df_psych c)) in
      let other_cols :=
        take 10
          (List.filter
             (fun col =>
                negb (bool_decide
                        (col ∈ ["Participant_ID"; "Assessment_Date"; name_col]))
                && negb (bool_decide (Some col = date_col)))
             (columns df_psych_clean)) in
      let psych_cols := ["Participant_ID"; "Assessment_Date"] ++ other_cols in
      df_psych_to_insert ← select psych_cols df_psych_clean;
      let df_psych_to_insert := dropna ["Participant_ID"] df_psych_to_insert in
      to_sql "PSYCHOSOCIAL_ASSESSMENT" df_psych_to_insert
  end.

(** *** [load_diagnosis_codes] *)

(** The frame [pd.read_csv(..., header=None)] returns: columns labelled
    [0 .. ncols-1], a row holding its cells by position. *)
Record RawFrame := mkRaw {
  ncols : nat;
  raw_rows : list (list Cell);
}.

(** [df_data.loc[:, [i, j]]] with the columns then named [Code] and
    [Description]. *)
Definition code_pair (i j : nat) (df_data : list (list Cell)) : DataFrame :=
  {| columns := ["Code"; "Description"];
     rows := map (fun r => <["Code" := default NA (r !! i)]>
                             (<["Description" := default NA (r !! j)]> ∅))
                 df_data |}.

Definition load_diagnosis_codes (file : csv RawFrame) : Load unit :=
  df_codes ← read_or_return file;
  let df_data := drop 1 (raw_rows df_codes) in
  if negb (bool_decide (1 < ncols df_codes)) then raise (KeyError "[0, 1]") else
  let df_part1 := dropna ["Code"] (code_pair 0 1 df_data) in
  if negb (bool_decide (5 < ncols df_codes)) then raise (KeyError "[4, 5]") else
  let df_part2 := dropna ["Code"] (code_pair 4 5 df_data) in
  let df_final := concat ["Code"; "Description"] [df_part1; df_part2] in
  let df_final := assign df_final "Code" (fun r => str_stripped (getcol r "Code")) in
  let df_final :=
    assign df_final "Description" (fun r => str_stripped (getcol r "Description")) in
  let df_final := drop_duplicates ["Code"] df_final in
  to_sql "DIAGNOSIS_CODE" df_final.

(** *** [load_participants_and_enrollment] *)

Definition REQUIRED_COL_NAME : string := "Participant Name".

Definition race_cols : list string :=
  ["Race: White"; "Race: Black"; "Race: Native American"; "Race: Asian";
   "Race: Other"].

Definition demo_cols : list string :=
  ["Participant_ID"; "DOB"; "Gender"] ++ race_cols.

(** [row.get(col) == 1.0]. *)
Definition equals_one (c : Cell) : bool :=
  match c with
  | Num n => is_one n
  | _ => false
  end.

Definition determine_race (row : Row) : Cell :=
  let races :=
    map (PyStr.replace "Race: " "")
        (List.filter (fun col => equals_one (getcol row col)) race_cols) in
  match races with
  | [race] => Str race
  | _ :: _ :: _ => Str "Multi-Racial"
  | [] => NA
  end.

(** [col.astype(str).str.split(', ', expand=True)]: one list of pieces per
    row; the expanded frame has as many columns as the longest list. *)
Definition name_parts_of (df : DataFrame) : list (list string) :=
  map (fun r => PyStr.split ", " (astype_str (getcol r REQUIRED_COL_NAME))) (rows df).

Definition parts_width (parts : list (list string)) : nat :=
  foldr (fun p acc => Nat.max (length p) acc) 0 parts.

(** [name_parts[k].str.strip()] on one row. *)
Definition part_stripped (k : nat) (p : list string) : Cell :=
  match p !! k with
  | Some s => Str (PyStr.strip s)
  | None => NA
  end.

Definition enrollment_cols : list string :=
  ["Participant_ID"; "Date Started MHC"; "Date Ended MHC"; "Length of MHC";
   "End Status"].

Definition load_participants_and_enrollment (roster demographics : csv DataFrame)
  : Load unit :=
  df_roster ← read_or_return roster;
  df_demo ← read_or_return demographics;
  if negb (bool_decide (REQUIRED_COL_NAME ∈ columns df_roster))
  then raise (KeyError REQUIRED_COL_NAME) else
  let df_roster :=
    assign df_roster "Participant_ID"
      (fun r => pid_cell (getcol r REQUIRED_COL_NAME)) in
  if negb (bool_decide (REQUIRED_COL_NAME ∈ columns df_demo))
  then raise (KeyError REQUIRED_COL_NAME) else
  let df_demo_data :=
    assign df_demo "Participant_ID"
      (fun r => pid_cell (getcol r REQUIRED_COL_NAME)) in
  roster_names ← select ["Participant_ID"; REQUIRED_COL_NAME] df_roster;
  let df_participants := drop_duplicates ["Participant_ID"] roster_names in
  demo_selected ← select demo_cols df_demo_data;
  let df_participants :=
    merge_left df_participants (drop_duplicates ["Participant_ID"] demo_selected)
      ["Participant_ID"] in
  let df_participants := rename_column "DOB" "Date_of_Birth" df_participants in
  let name_parts := name_parts_of df_participants in
  if negb (bool_decide (0 < parts_width name_parts)) then raise (KeyError "0") else
  let df_participants :=
    set_column df_participants "Last_Name" (map (part_stripped 0) name_parts) in
  if negb (bool_decide (1 < parts_width name_parts)) then raise (KeyError "1") else
  let df_participants :=
    set_column df_participants "First_Name" (map (part_stripped 1) name_parts) in
  let df_participants :=
    set_column df_participants "Date_of_Birth"
      (normalized_dates (col_values df_participants "Date_of_Birth")) in
  let df_participants := assign df_participants "Race_Ethnicity" determine_race in
  participants_to_insert ←
    select ["Participant_ID"; "First_Name"; "Last_Name"; "Date_of_Birth"; "Gender";
            "Race_Ethnicity"] df_participants;
  let participants_to_insert :=
    drop_duplicates ["Participant_ID"]
      (dropna ["Participant_ID"] participants_to_insert) in
  _ ← to_sql "PARTICIPANT" participants_to_insert;
  df_enrollment ← select enrollment_cols df_roster;
  let df_enrollment :=
    set_column df_enrollment "Start_Date"
      (normalized_dates (col_values df_enrollment "Date Started MHC")) in
  let df_enrollment :=
    set_column df_enrollment "End_Date"
      (normalized_dates (col_values df_enrollment "Date Ended MHC")) in
  let df_enrollment := rename_column "Length of MHC" "Length_Days" df_enrollment in
  let df_enrollment := rename_column "End Status" "End_Status" df_enrollment in
  let df_enrollment := dropna ["Participant_ID"; "Start_Date"] df_enrollment in
  df_enrollment_final ←
    select ["Participant_ID"; "Start_Date"; "End_Date"; "End_Status"; "Length_Days"]
      df_enrollment;
  to_sql "MHC_ENROLLMENT" df_enrollment_final.

(** *** [load_criminal_charges] *)

(** The two loops that look for the charge-date column. *)
Definition find_charge_date_col (cols : list string) : option string :=
  match List.find (fun col => bool_decide (str_upper col = "CHARGE DATE")) cols with
  | Some col => Some col
  | None =>
      List.find
        (fun col =>
           PyStr.contains "CHARGE" (str_upper col)
           && PyStr.contains "DATE" (str_upper col)
           && negb (PyStr.contains "MHC" (str_upper col)))
        cols
  end.

(** The loop over the columns that sets [first_name_col] and
    [last_name_col]; it has no [break], a later match replaces an earlier
    one. *)
Definition exact_name_cols (cols : list string) : option string * option string :=
  foldl
    (fun '(first_name_col, last_name_col) col =>
       if bool_decide (str_upper col = "FIRST NAME") then (Some col, last_name_col)
       else if bool_decide (str_upper col = "LAST NAME") then (first_name_col, Some col)
       else (first_name_col, last_name_col))
    (None, None) cols.

(** [first_name_col] and [last_name_col] after the [if ... is None]
    fallbacks. *)
Definition charge_name_cols (cols : list string) : option string * option string :=
  let '(first_name_col, last_name_col) := exact_name_cols cols in
  let first_name_col :=
    match first_name_col with
    | Some col => Some col
    | None => find_column_by_keywords cols ["FIRST"] false
    end in
  let last_name_col :=
    match last_name_col with
    | Some col => Some col
    | None => find_column_by_keywords cols ["LAST"] false
    end in
  (first_name_col, last_name_col).

(** An exact match first, the substring match as the fallback. *)
Definition exact_then (cols : list string) (exact fallback : list string)
  : option string :=
  match find_column_by_keywords cols exact true with
  | Some col => Some col
  | None => find_column_by_keywords cols fallback false
  end.

(** Whether [col.str] is available: the column has pandas' object dtype,
    which [read_csv] gives a column holding text, and every column of a
    file without data rows. *)
Definition object_dtype (df : DataFrame) (col : string) : bool :=
  match rows df with
  | [] => true
  | _ => existsb is_str (col_values df col)
  end.

Definition optional_col (o : option string) : list string :=
  match o with
  | Some (String a s) => [String a s]
  | _ => []
  end.

Definition charge_participant_id (last_name_col first_name_col : string) (r : Row)
  : Cell :=
  pid_cell
    (Str (PyStr.strip (astype_str (getcol r last_name_col))
          +:+ ", " +:+ PyStr.strip (astype_str (getcol r first_name_col)))).

Definition load_criminal_charges (file : csv DataFrame) : Load unit :=
  df_charges ← read_or_return file;
  match find_charge_date_col (columns df_charges) with
  | None => ret
  | Some charge_date_col =>
  let df_charges_data :=
    filter_rows (fun r => notna (getcol r charge_date_col)) df_charges in
  match charge_name_cols (columns df_charges) with
  | (Some first_name_col, Some last_name_col) =>
  let df_charges_data :=
    assign df_charges_data "Participant_ID"
      (charge_participant_id last_name_col first_name_col) in
  let offense_col := exact_then (columns df_charges) ["OFFENSE"] ["OFFENSE"] in
  let class_col := exact_then (columns df_charges) ["CLASS"] ["CLASS"] in
  match offense_col, class_col with
  | Some offense_col, Some class_col =>
  pair_frame ← select [offense_col; class_col] df_charges_data;
  if bool_decide (offense_col = class_col) then raise AttributeError else
  let df_offenses := drop_duplicates [offense_col; class_col] pair_frame in
  if negb (object_dtype df_charges offense_col) then raise AttributeError else
  let df_offenses :=
    assign df_offenses "Offense_Name"
      (fun r => dot_str PyStr.strip (getcol r offense_col)) in
  if negb (object_dtype df_charges class_col) then raise AttributeError else
  let df_offenses :=
    assign df_offenses "Class"
      (fun r => dot_str str_upper (dot_str PyStr.strip (getcol r class_col))) in
  let df_offenses :=
    set_column df_offenses "Offense_ID"
      (map (fun i => Num (of_int (Z.of_nat i))) (seq 1 (length (rows df_offenses)))) in
  df_offenses_to_insert ← select ["Offense_ID"; "Offense_Name"; "Class"] df_offenses;
  _ ← to_sql "CHARGE_OFFENSE" df_offenses_to_insert;
  if bool_decide (offense_col = "Offense_ID") then raise ValueError else
  let df_merged := merge_left df_charges_data df_offenses [offense_col; class_col] in
  let mhc_status_col :=
    exact_then (columns df_charges) ["MHC STATUS"] ["MHC"; "STATUS"] in
  let outcome_col :=
    exact_then (columns df_charges) ["NG/DISMISSED"] ["DISMISSED"; "OUTCOME"] in
  let participant_charge_cols :=
    ["Participant_ID"; "Offense_ID"; charge_date_col]
    ++ optional_col mhc_status_col ++ optional_col outcome_col in
  df_participant_charge ← select participant_charge_cols df_merged;
  if negb (bool_decide (NoDup participant_charge_cols))
  then raise (if bool_decide
                   (NoDup (["Participant_ID"; "Offense_ID"; charge_date_col]
                           ++ optional_col outcome_col))
                 && bool_decide (optional_col mhc_status_col ≠ optional_col outcome_col)
              then OperationalError else AttributeError)
  else
  let df_participant_charge :=
    rename_column charge_date_col "Charge_Date" df_participant_charge in
  let df_participant_charge :=
    match optional_col mhc_status_col with
    | [col] => rename_column col "Status_at_Charge" df_participant_charge
    | _ => df_participant_charge
    end in
  let df_participant_charge :=
    match optional_col outcome_col with
    | [col] => rename_column col "Outcome" df_participant_charge
    | _ => df_participant_charge
    end in
  let df_participant_charge :=
    if bool_decide ("Charge_Date" ∈ columns df_participant_charge)
    then set_column df_participant_charge "Charge_Date"
           (normalized_dates (col_values df_participant_charge "Charge_Date"))
    else df_participant_charge in
  let df_participant_charge :=
    if bool_decide ("Outcome" ∈ columns df_participant_charge)
    then assign df_participant_charge "Outcome"
           (fun r => Str (PyStr.strip
                            (PyStr.replace "G/Convicted" "Convicted"
                               (astype_str (getcol r "Outcome")))))
    else df_participant_charge in
  let insert_cols :=
    ["Participant_ID"; "Offense_ID"]
    ++ List.filter (fun c => bool_decide (c ∈ columns df_participant_charge))
         ["Charge_Date"; "Status_at_Charge"; "Outcome"] in
  to_insert ← select insert_cols df_participant_charge;
  to_sql "PARTICIPANT_CHARGE" to_insert
  | _, _ => ret
  end
  | _ => ret
  end
  end.

End Extractors.

(** ** The store and the orchestrator *)

Section Orchestrator.

Context `{Unicode} `{Pandas}.

(** The tables of the database file, by name. *)
Abbreviation Store := (gmap string DataFrame).

(** An open [sqlite3] connection: what the file holds, and what the
    connection sees, its uncommitted changes included. *)
Record Connection := mkConn {
  disk : Store;
  view : Store;
}.

Definition connect (db : Store) : Connection := {| disk := db; view := db |}.

Definition commit (c : Connection) : Connection :=
  {| disk := view c; view := view c |}.

Definition rollback (c : Connection) : Connection :=
  {| disk := disk c; view := disk c |}.

(** The statements of a [to_sql(..., if_exists='replace')]: the table is
    dropped, created again and filled. *)
Definition replace_table (name : string) (df : DataFrame) (c : Connection)
  : Connection :=
  {| disk := disk c; view := <[name := df]> (view c) |}.

(** [DataFrame.to_sql] on a [sqlite3] connection: pandas runs the
    statements inside [SQLiteDatabase.run_transaction], which calls
    [con.commit()] when its block ends. *)
Definition sql_write (name : string) (df : DataFrame) (c : Connection)
  : Connection :=
  commit (replace_table name df c).

(** [conn.executescript(script)]: a pending transaction is committed
    first, then the script runs in autocommit mode. *)
Definition executescript (script : Store -> Store) (c : Connection) : Connection :=
  let c := commit c in
  {| disk := script (disk c); view := script (disk c) |}.

(** [create_schema]: a missing script file is reported and skipped; any
    error of the script is swallowed, what it did before stays. *)
Definition create_schema (schema_file : option (Store -> Store)) (c : Connection)
  : Connection :=
  match schema_file with
  | Some script => executescript script c
  | None => c
  end.

(** The files of the working directory. *)
Record Files := mkFiles {
  schema_ddl : option (Store -> Store);
  diagnosis_codes_csv : csv RawFrame;
  roster_csv : csv DataFrame;
  demographics_csv : csv DataFrame;
  criminal_history_csv : csv DataFrame;
  mental_health_csv : csv DataFrame;
  risk_assessment_csv : csv DataFrame;
  jail_csv : csv DataFrame;
  treatment_csv : string -> csv DataFrame;
  psychosocial_csv : csv DataFrame;
}.

(** The extractors in the order [load_data] calls them. *)
Definition extractors (fs : Files) : list (Load unit) :=
  [load_diagnosis_codes (diagnosis_codes_csv fs);
   load_participants_and_enrollment (roster_csv fs) (demographics_csv fs);
   load_criminal_charges (criminal_history_csv fs);
   load_mental_health_data (mental_health_csv fs);
   load_risk_assessments (risk_assessment_csv fs);
   load_jail_data (jail_csv fs);
   load_treatment_episodes (treatment_csv fs);
   load_psychosocial_assessments (psychosocial_csv fs)].

Section Sink.

(** How a [to_sql] call acts on the connection. *)
Variable write : string -> DataFrame -> Connection -> Connection.

Definition run_writes (w : list (string * DataFrame)) (c : Connection)
  : Connection :=
  foldl (fun c '(name, df) => write name df c) c w.

(** The body of the [try]: the extractors run in turn until one
    raises. *)
Fixpoint run_extractors (ms : list (Load unit)) (c : Connection)
  : Connection * option exn :=
  match ms with
  | [] => (c, None)
  | (w, s) :: rest =>
      let c := run_writes w c in
      match s with
      | Raise e => (c, Some e)
      | _ => run_extractors rest c
      end
  end.

(** [load_data], from [sqlite3.connect] to [conn.close()]; the result is
    the database file and the exception the [except] clause caught. *)
Definition load_data_with (fs : Files) (db : Store) : Store * option exn :=
  let conn := connect db in
  let conn := create_schema (schema_ddl fs) conn in
  match run_extractors (extractors fs) conn with
  | (conn, None) => (disk (commit conn), None)
  | (conn, Some e) => (disk (rollback conn), Some e)
  end.

End Sink.

Definition load_data : Files -> Store -> Store * option exn :=
  load_data_with sql_write.

(** All [to_sql] calls of a run, in order. *)
Fixpoint writes_of (ms : list (Load unit)) : list (string * DataFrame) :=
  match ms with
  | [] => []
  | (w, s) :: rest =>
      match s with
      | Raise _ => w
      | _ => w ++ writes_of rest
      end
  end.

Definition fact_tables : list string :=
  ["PARTICIPANT_CHARGE"; "PARTICIPANT_DIAGNOSIS"; "RISK_ASSESSMENT"; "JAIL_DATA";
   "TREATMENT_EPISODE"; "PSYCHOSOCIAL_ASSESSMENT"; "MHC_ENROLLMENT"].

End Orchestrator.

(** ** Instances of [Unicode] and [Pandas]

    Case mappings that leave every character outside ASCII, integer scalars
    and ISO dates ([YYYY-MM-DD]): enough to run the loader on examples made
    of ASCII text. *)

Module IsoPandas.

#[export] Instance ascii_text : Unicode := {|
  str_lower := PyStr.ascii_lower;
  str_upper := PyStr.ascii_upper;
  str_lower_ascii := fun _ _ => eq_refl;
  str_upper_ascii := fun _ _ => eq_refl;
|}.

Definition nat_str (n : nat) : string := NilZero.string_of_uint (Nat.to_uint n).

Definition z_str (z : Z) : string := NilZero.string_of_int (Z.to_int z).

Definition parse_nat (s : string) : option nat :=
  match NilZero.uint_of_string s with
  | Some d => Some (Nat.of_uint d)
  | None => None
  end.

Definition parse_z (s : string) : option Z :=
  match NilZero.int_of_string s with
  | Some d => Some (Z.of_int d)
  | None => None
  end.

Definition pad (width : nat) (s : string) : string :=
  String.concat "" (replicate (width - String.length s) "0") +:+ s.

(** Days since 1970-01-01 of a civil date, and back. *)
Definition days_from_civil (y m d : Z) : Z :=
  let y := if (m <=? 2)%Z then (y - 1)%Z else y in
  let era := (y / 400)%Z in
  let yoe := (y - era * 400)%Z in
  let mp := if (2 <? m)%Z then (m - 3)%Z else (m + 9)%Z in
  let doy := ((153 * mp + 2) / 5 + d - 1)%Z in
  let doe := (yoe * 365 + yoe / 4 - yoe / 100 + doy)%Z in
  (era * 146097 + doe - 719468)%Z.

Definition civil_from_days (z : Z) : Z * Z * Z :=
  let z := (z + 719468)%Z in
  let era := (z / 146097)%Z in
  let doe := (z - era * 146097)%Z in
  let yoe := ((doe - doe / 1460 + doe / 36524 - doe / 146096) / 365)%Z in
  let doy := (doe - (365 * yoe + yoe / 4 - yoe / 100))%Z in
  let mp := ((5 * doy + 2) / 153)%Z in
  let d := (doy - (153 * mp + 2) / 5 + 1)%Z in
  let m := if (mp <? 10)%Z then (mp + 3)%Z else (mp - 9)%Z in
  ((if (m <=? 2)%Z then yoe + era * 400 + 1 else yoe + era * 400)%Z, m, d).

Definition iso_format (t : Z) : string :=
  let '(y, m, d) := civil_from_days (t / day_ns) in
  pad 4 (z_str y) +:+ "-" +:+ pad 2 (z_str m) +:+ "-" +:+ pad 2 (z_str d).

Definition iso_parse (s : string) : option Z :=
  match PyStr.split "-" s with
  | [y; m; d] =>
      match parse_nat y, parse_nat m, parse_nat d with
      | Some y, Some m, Some d =>
          let days := days_from_civil (Z.of_nat y) (Z.of_nat m) (Z.of_nat d) in
          if bool_decide
               (civil_from_days days = (Z.of_nat y, Z.of_nat m, Z.of_nat d))
          then Some (days * day_ns)%Z
          else None
      | _, _, _ => None
      end
  | _ => None
  end.

Definition cell_to_datetime (c : cell Z) : option Z :=
  match c with
  | Str s => iso_parse (PyStr.strip s)
  | _ => None
  end.

Definition cell_to_numeric (c : cell Z) : option Z :=
  match c with
  | NA => None
  | Str s => parse_z (PyStr.strip s)
  | Num n => Some n
  end.

#[export] Instance iso_pandas : Pandas := {|
  number := Z;
  num_str := z_str;
  of_int := fun z => z;
  is_one := fun z => bool_decide (z = 1%Z);
  to_numeric := cell_to_numeric;
  to_datetime := map cell_to_datetime;
  strftime := iso_format;
|}.

(** A frame from its header and its rows of cells, in column order. *)
Definition frame (header : list string) (body : list (list (cell Z))) : DataFrame :=
  {| columns := header;
     rows := map (fun cells => list_to_map (zip header cells)) body |}.

(** A row as its cells in the order of the frame's columns. *)
Definition cells_of (df : DataFrame) : list (list (cell Z)) :=
  map (fun r => map (getcol r) (columns df)) (rows df).

End IsoPandas.

(** ** The specification's reading of the two helpers *)

(** Replacing a one-character pattern acts character by character. *)
Fixpoint subst_char (a : ascii) (new s : string) : string :=
  match s with
  | EmptyString => EmptyString
  | String c r => (if ascii_dec a c then new else String c "") +:+ subst_char a new r
  end.

(** A run of white-space characters. *)
Definition blank_of (ws : list (list ascii)) (l : list ascii) : Prop :=
  exists parts, Forall (fun w => w ∈ ws) parts /\ l = List.concat parts.

(** No white-space character at the start, at the end. *)
Definition starts_clean (s : string) : Prop :=
  PyStr.drop_space PyStr.whitespace (list_ascii_of_string s) = None.

Definition ends_clean (s : string) : Prop :=
  PyStr.drop_space (map (@rev ascii) PyStr.whitespace)
    (rev (list_ascii_of_string s)) = None.

(** [k] is [s] without a run of white space at each end. *)
Definition trimmed_of (s k : string) : Prop :=
  exists pre post,
    list_ascii_of_string s = pre ++ list_ascii_of_string k ++ post
    /\ blank_of PyStr.whitespace pre /\ blank_of PyStr.whitespace post.

(** What the normalizer does with one character of the lower-cased name. *)
Definition name_char (c : ascii) : string :=
  if ascii_dec c " " then ""
  else if ascii_dec c "," then "-"
  else if ascii_dec c "." then ""
  else if ascii_dec c "/" then ""
  else String c "".

Fixpoint normalize_chars (s : string) : string :=
  match s with
  | EmptyString => EmptyString
  | String c r => name_char c +:+ normalize_chars r
  end.

Section Reading.
Context `{Unicode} {number : Type}.

Definition normalize_name (raw : cell number) : option string :=
  match raw with
  | Str s => Some (PyStr.strip (normalize_chars (str_lower s)))
  | _ => None
  end.

Definition qualifies (exact : bool) (keywords : list string) (header : string)
  : Prop :=
  exists keyword, keyword ∈ keywords /\
    if exact then str_upper header = str_upper keyword
    else exists pre post,
        str_upper header = pre +:+ str_upper keyword +:+ post.
End Reading.

(** ** Properties of frames used in the statements *)

Section FrameReading.
Context `{Unicode} `{Pandas}.

(** A property of every cell of a column *)

Definition col_all (P : Cell -> Prop) (c : string) (df : DataFrame) : Prop :=
  Forall (fun r => P (getcol r c)) (rows df).

Definition has_participant (df : DataFrame) : Prop :=
  col_all (fun v => v ≠ NA) "Participant_ID" df.

End FrameReading.

Section JailReading.
Context `{Unicode} `{Pandas}.

(** The entry of a parsed date column at a position. *)
Definition date_at (dates : list (option Z)) (i : nat) : option Z :=
  match dates !! i with
  | Some d => d
  | None => None
  end.

(** [df_jail_clean] of [load_jail_data] before the days are derived. *)
Definition jail_clean (name_col : string) (df : DataFrame) : DataFrame :=
  jail_columns (assign df "Participant_ID" (fun r => pid_cell (getcol r name_col))).

(** Row [i] of the jail file, which has a participant and no days value of
    its own, and whose start and end dates parse, is in the table with the
    difference of the two dates in days. *)
Definition jail_row_derived (df T : DataFrame) (name_col : string) (i : nat) : Prop :=
  let clean := jail_clean name_col df in
  forall r s e,
    rows clean !! i = Some r ->
    getcol r "Participant_ID" ≠ NA ->
    getcol r "Days_Incarcerated" = NA ->
    date_at (to_datetime (col_values clean "Start_Date")) i = Some s ->
    date_at (to_datetime (col_values clean "End_Date")) i = Some e ->
    exists r', In r' (rows T)
      /\ getcol r' "Participant_ID" = getcol r "Participant_ID"
      /\ getcol r' "Start_Date" = getcol r "Start_Date"
      /\ getcol r' "End_Date" = getcol r "End_Date"
      /\ getcol r' "Days_Incarcerated" = Num (of_int ((e - s) / day_ns)).

End JailReading.

(** ** Diagnosis codes *)

Section CodeReading.
Context `{Unicode} `{Pandas}.

(** The code and description texts of one column pair, in row order; rows
    without a code are left out. *)
Definition code_entries (i j : nat) (df_data : list (list Cell))
  : list (string * string) :=
  map (fun r => (PyStr.strip (astype_str (default NA (r !! i))),
                 PyStr.strip (astype_str (default NA (r !! j)))))
    (List.filter (fun r => notna (default NA (r !! i))) df_data).

(** The union of the two pairs: all of columns 0-1, then all of columns
    4-5; the first row of the file is its header. *)
Definition code_union (raw : RawFrame) : list (string * string) :=
  code_entries 0 1 (drop 1 (raw_rows raw))
  ++ code_entries 4 5 (drop 1 (raw_rows raw)).

(** [(code, desc)] is the first entry of the list with that code. *)
Definition first_entry (entries : list (string * string)) (code desc : string)
  : Prop :=
  exists pre post, entries = pre ++ (code, desc) :: post /\ ~ In code (map fst pre).

Definition table_entries (T : DataFrame) : list (Cell * Cell) :=
  map (fun r => (getcol r "Code", getcol r "Description")) (rows T).

(** The key [drop_duplicates] compares. *)
Definition row_key (cols : list string) (r : Row) : list Cell := map (getcol r) cols.

Definition entry_of (r : Row) : Cell * Cell := (getcol r "Code", getcol r "Description").

Definition as_cells (e : string * string) : Cell * Cell := (Str e.1, Str e.2).

End CodeReading.

(** ** Columns carried from frame to frame *)

Section ColumnReading.
Context `{Unicode} `{Pandas}.

(** Column [c] of [T] holds the values of column [c] of [D]: every row of
    [T] has the value of a row of [D], and every row of [D] has a row of
    [T] with its value. *)
Definition same_column (c : string) (D T : DataFrame) : Prop :=
  (forall r', In r' (rows T) -> exists r, In r (rows D) /\ getcol r' c = getcol r c)
  /\ (forall r, In r (rows D) -> exists r', In r' (rows T) /\ getcol r' c = getcol r c).

Definition is_text (v : Cell) : Prop := exists s, v = Str s.

End ColumnReading.

(** ** Example files *)

Module Examples.
Import IsoPandas.

(** The table an extractor run wrote first. *)
Definition first_table (run : Load unit) : DataFrame :=
  match run.1 with
  | (_, T) :: _ => T
  | [] => mkFrame [] []
  end.

(** A jail file where one stay has its days and another has not. *)
Definition jail_mixed : DataFrame :=
  frame ["Participant Name"; "Booking Start"; "Release Date"; "Days"]
    [[Str "Smith, John"; Str "2024-01-10"; Str "2024-01-15"; Str "5"];
     [Str "Doe, Jane"; Str "2024-03-01"; Str "2024-03-04"; NA]].

(** A jail file without a days column; the second stay ends before it
    starts. *)
Definition jail_no_days : DataFrame :=
  frame ["Participant Name"; "Booking Start"; "Release Date"]
    [[Str "Smith, John"; Str "2024-01-10"; Str "2024-01-15"];
     [Str "Doe, Jane"; Str "2024-03-04"; Str "2024-03-01"]].

(** A code file whose two column pairs overlap: F10 and F32 are in both. *)
Definition codes_overlap : RawFrame :=
  mkRaw 6
    [[Str "Code"; Str "Description"; NA; NA; Str "Code"; Str "Description"];
     [Str "F32"; Str "Depression"; NA; NA; Str "F10"; Str "Alcohol"];
     [Str "F10 "; Str "Alcohol use"; NA; NA; Str "F32"; Str "Depressive episode"];
     [NA; Str "no code"; NA; NA; Str "F99"; NA]].

End Examples.

(** * Properties *)

(** ** Text *)

Module PyStrFacts.
Import PyStr.

Lemma append_cons (c : ascii) (s t : string) :
  String c s +:+ t = String c (s +:+ t).
Proof. reflexivity. Qed.

Lemma append_nil_l (s : string) : "" +:+ s = s.
Proof. reflexivity. Qed.

Lemma append_nil_r (s : string) : s +:+ "" = s.
Proof. induction s as [|c s IH]; [done | by rewrite append_cons, IH]. Qed.

Lemma append_assoc (a b c : string) : (a +:+ b) +:+ c = a +:+ (b +:+ c).
Proof.
  induction a as [|x a IH]; [done | by rewrite !append_cons, IH].
Qed.

Lemma prefix_nil (s : string) : String.prefix "" s = true.
Proof. by destruct s. Qed.

Lemma prefix_spec (p s : string) :
  String.prefix p s = true <-> exists post, s = p +:+ post.
Proof.
  revert s. induction p as [|a p IH]; intros s.
  - rewrite prefix_nil. split; [intros _; by exists s | done].
  - destruct s as [|b s]; [split; [done | intros [post Hp]; discriminate] |].
    simpl. destruct (ascii_dec a b) as [->|Hne].
    + rewrite IH. split; intros [post Hp]; exists post;
        rewrite ?append_cons in *; congruence.
    + split; [done | intros [post Hp]; rewrite append_cons in Hp; congruence].
Qed.

(** [contains sub s] holds exactly when [sub] occurs in [s]. *)
Lemma contains_spec (sub s : string) :
  contains sub s = true <-> exists pre post, s = pre +:+ sub +:+ post.
Proof.
  induction s as [|c s IH]; cbn [contains].
  - rewrite prefix_spec. split.
    + intros [post Hp]. by exists "", post.
    + intros [pre [post Hp]]. destruct pre; [by exists post | discriminate].
  - rewrite orb_true_iff, IH, prefix_spec. split.
    + intros [[post Hp] | [pre [post Hp]]].
      * by exists "", post.
      * exists (String c pre), post. by rewrite append_cons, Hp.
    + intros [pre [post Hp]]. destruct pre as [|x pre].
      * left. by exists post.
      * right. exists pre, post. rewrite append_cons in Hp. congruence.
Qed.

Lemma replace_char (a : ascii) (new s : string) :
  replace (String a "") new s = subst_char a new s.
Proof.
  unfold replace. induction s as [|c s IH]; [done |].
  cbn [replace_go subst_char]. rewrite <- IH.
  change (String.prefix (String a "") (String c s))
    with (if ascii_dec a c then String.prefix "" s else false).
  destruct (ascii_dec a c) as [->|Hne]; [by rewrite prefix_nil | done].
Qed.

Lemma subst_char_app (a : ascii) (new s t : string) :
  subst_char a new (s +:+ t) = subst_char a new s +:+ subst_char a new t.
Proof.
  induction s as [|c s IH]; [done |].
  rewrite append_cons. simpl. by rewrite IH, append_assoc.
Qed.

(** *** [strip] *)

Lemma drop_space_Some ws l r :
  drop_space ws l = Some r -> exists w, w ∈ ws /\ l = w ++ r.
Proof.
  unfold drop_space. destruct (find _ ws) as [w|] eqn:E; [| done].
  intros [= <-]. apply find_some in E as [Hin Hp].
  apply bool_decide_eq_true in Hp as [k ->]. exists w.
  split; [by apply list_elem_of_In |]. by rewrite drop_app_length.
Qed.

Lemma drop_space_None ws l :
  drop_space ws l = None <-> forall w, w ∈ ws -> ~ w `prefix_of` l.
Proof.
  unfold drop_space. destruct (find _ ws) as [w|] eqn:E.
  - split; [done |]. intros Hno. apply find_some in E as [Hin Hp].
    apply bool_decide_eq_true in Hp. by destruct (Hno w (proj2 (list_elem_of_In _ _) Hin)).
  - split; [| done]. intros _ w Hin Hp. apply list_elem_of_In in Hin.
    eapply find_none in E; [| exact Hin]. by apply bool_decide_eq_false in E.
Qed.

Lemma blank_of_nil ws : blank_of ws [].
Proof. by exists []. Qed.

Lemma blank_of_app ws a b : blank_of ws a -> blank_of ws b -> blank_of ws (a ++ b).
Proof.
  intros [pa [Ha ->]] [pb [Hb ->]]. exists (pa ++ pb).
  split; [by apply Forall_app | by rewrite concat_app].
Qed.

Lemma blank_of_one ws w : w ∈ ws -> blank_of ws w.
Proof.
  intros Hw. exists [w]. split; [by constructor |]. cbn. by rewrite app_nil_r.
Qed.

Lemma blank_of_rev ws l : blank_of (map (@rev ascii) ws) l -> blank_of ws (rev l).
Proof.
  intros [parts [Hparts ->]]. induction parts as [|p parts IH].
  - apply blank_of_nil.
  - apply Forall_cons in Hparts as [Hp Hparts]. cbn [List.concat].
    rewrite rev_app_distr. apply blank_of_app; [by apply IH |].
    apply list_elem_of_In, in_map_iff in Hp as [w [<- Hw]].
    rewrite rev_involutive. by apply blank_of_one, list_elem_of_In.
Qed.

Lemma lstrip_go_split ws n l :
  exists pre, l = pre ++ lstrip_go ws n l /\ blank_of ws pre.
Proof.
  revert l. induction n as [|n IH]; intros l; cbn [lstrip_go].
  - exists []. split; [done | apply blank_of_nil].
  - destruct (drop_space ws l) as [r|] eqn:E.
    + apply drop_space_Some in E as [w [Hw ->]].
      destruct (IH r) as [pre [Hr Hpre]]. exists (w ++ pre).
      split; [by rewrite <- app_assoc, <- Hr |].
      by apply blank_of_app; [apply blank_of_one |].
    + exists []. split; [done | apply blank_of_nil].
Qed.

Lemma lstrip_go_clean ws n l :
  Forall (fun w => w ≠ []) ws -> length l <= n ->
  drop_space ws (lstrip_go ws n l) = None.
Proof.
  intros Hws. revert l. induction n as [|n IH]; intros l Hlen; cbn [lstrip_go].
  - destruct l; [| cbn in Hlen; lia]. apply drop_space_None.
    intros w Hw [k Hk]. rewrite Forall_forall in Hws. apply (Hws w Hw).
    symmetry in Hk. by apply app_eq_nil in Hk as [-> _].
  - destruct (drop_space ws l) as [r|] eqn:E; [| done].
    apply IH. apply drop_space_Some in E as [w [Hw ->]].
    rewrite Forall_forall in Hws. specialize (Hws w Hw).
    rewrite length_app in Hlen. destruct w; [done |]. cbn in Hlen. lia.
Qed.

Lemma whitespace_nonempty : Forall (fun w => w ≠ []) whitespace.
Proof. repeat constructor; discriminate. Qed.

Lemma whitespace_rev_nonempty : Forall (fun w => w ≠ []) (map (@rev ascii) whitespace).
Proof. repeat constructor; discriminate. Qed.

Lemma strip_list_spec (l : list ascii) :
  drop_space whitespace (strip_list l) = None
  /\ drop_space (map (@rev ascii) whitespace) (rev (strip_list l)) = None
  /\ exists pre post, l = pre ++ strip_list l ++ post
       /\ blank_of whitespace pre /\ blank_of whitespace post.
Proof.
  unfold strip_list, lstrip_list.
  set (r := rstrip_list l).
  destruct (lstrip_go_split whitespace (length r) r) as [pre [Hr Hpre]].
  set (k := lstrip_go whitespace (length r) r) in *.
  assert (drop_space (map (@rev ascii) whitespace) (rev r) = None) as Hend.
  { unfold r, rstrip_list. rewrite rev_involutive.
    apply lstrip_go_clean; [apply whitespace_rev_nonempty |].
    by rewrite length_rev. }
  split; [| split].
  - by apply lstrip_go_clean; [apply whitespace_nonempty |].
  - apply drop_space_None. intros w Hw Hp.
    rewrite drop_space_None in Hend. apply (Hend w Hw).
    rewrite Hr, rev_app_distr. by apply prefix_app_r.
  - destruct (lstrip_go_split (map (@rev ascii) whitespace) (length l) (rev l))
      as [post' [Hl Hpost]].
    exists pre, (rev post'). split; [| split; [done | by apply blank_of_rev]].
    rewrite app_assoc, <- Hr. unfold r, rstrip_list.
    rewrite <- rev_app_distr, <- Hl. by rewrite rev_involutive.
Qed.

Lemma strip_spec (s : string) :
  starts_clean (strip s) /\ ends_clean (strip s) /\ trimmed_of s (strip s).
Proof.
  unfold starts_clean, ends_clean, trimmed_of, strip.
  rewrite list_ascii_of_string_of_list_ascii.
  apply strip_list_spec.
Qed.

End PyStrFacts.

Import PyStrFacts.

(** ** The two helpers *)

Lemma passes_char_wise (s : string) :
  PyStr.replace "/" ""
    (PyStr.replace "." "" (PyStr.replace "," "-" (PyStr.replace " " "" s)))
  = normalize_chars s.
Proof.
  rewrite !replace_char. induction s as [|c s IH]; [done |].
  cbn [normalize_chars subst_char].
  rewrite !subst_char_app, IH. f_equal.
  unfold name_char.
  destruct (ascii_dec " " c) as [<-|H1]; [done |].
  destruct (ascii_dec c " ") as [E|_]; [by rewrite E in H1 |].
  cbn [subst_char]. rewrite append_nil_r.
  destruct (ascii_dec "," c) as [<-|H2]; [done |].
  destruct (ascii_dec c ",") as [E|_]; [by rewrite E in H2 |].
  cbn [subst_char]. rewrite append_nil_r.
  destruct (ascii_dec "." c) as [<-|H3]; [done |].
  destruct (ascii_dec c ".") as [E|_]; [by rewrite E in H3 |].
  cbn [subst_char]. rewrite append_nil_r.
  destruct (ascii_dec "/" c) as [<-|H4]; [done |].
  destruct (ascii_dec c "/") as [E|_]; [by rewrite E in H4 |].
  done.
Qed.

Section HelperFacts.
Context `{Unicode}.

Lemma create_participant_id_text {number : Type} (s : string) :
  create_participant_id (@Str number s)
  = Some (PyStr.strip (normalize_chars (str_lower s))).
Proof.
  unfold create_participant_id. cbn [isna is_str negb orb].
  by rewrite passes_char_wise.
Qed.

(** On ASCII text the key is computed with the ASCII case mapping. *)
Lemma create_participant_id_ascii {number : Type} (s : string) :
  PyStr.is_ascii s = true ->
  create_participant_id (@Str number s)
  = Some (PyStr.strip (normalize_chars (PyStr.ascii_lower s))).
Proof. intros Hs. by rewrite create_participant_id_text, str_lower_ascii. Qed.

Lemma keyword_hit_qualifies (exact : bool) (keywords : list string) (header : string) :
  keyword_hit exact (str_upper header) keywords = true
  <-> qualifies exact keywords header.
Proof.
  unfold qualifies. induction keywords as [|k ks IH]; cbn [keyword_hit].
  - split; [done | intros [k [Hk _]]; by apply elem_of_nil in Hk].
  - rewrite orb_true_iff, IH. split.
    + intros [Hhit | [k' [Hin Hq]]].
      * exists k. split; [apply list_elem_of_here |].
        destruct exact; [by apply bool_decide_eq_true in Hhit |].
        by apply contains_spec.
      * exists k'. split; [by apply list_elem_of_further | done].
    + intros [k' [Hin Hq]]. apply elem_of_cons in Hin as [->|Hin].
      * left. destruct exact; [by apply bool_decide_eq_true |].
        by apply contains_spec.
      * right. by exists k'.
Qed.

Lemma find_column_first (headers keywords : list string) (exact : bool) :
  match find_column_by_keywords headers keywords exact with
  | Some header =>
      exists before after, headers = before ++ header :: after
        /\ qualifies exact keywords header
        /\ Forall (fun h => ~ qualifies exact keywords h) before
  | None => Forall (fun h => ~ qualifies exact keywords h) headers
  end.
Proof.
  induction headers as [|h hs IH]; cbn [find_column_by_keywords]; [done |].
  destruct (keyword_hit exact (str_upper h) keywords) eqn:Hhit.
  - exists [], hs. split; [done |]. split; [by apply keyword_hit_qualifies | done].
  - assert (~ qualifies exact keywords h) as Hno.
    { intros Hq. apply keyword_hit_qualifies in Hq. congruence. }
    destruct (find_column_by_keywords hs keywords exact) as [found|].
    + destruct IH as [before [after [-> [Hq Hbefore]]]].
      exists (h :: before), after. split; [done |]. split; [done |].
      by constructor.
    + by constructor.
Qed.

End HelperFacts.

(** Evaluates a helper on ASCII text, where the case mappings are known. *)
Ltac eval_ascii :=
  cbn [find_column_by_keywords keyword_hit];
  rewrite ?create_participant_id_ascii by reflexivity;
  rewrite ?str_upper_ascii by reflexivity;
  vm_compute; reflexivity.

(** C2: [create_participant_id] returns nothing for a missing or non-text
    input and never fails; for text it returns the lower-cased text with
    spaces, periods and slashes removed and commas turned into hyphens,
    then trimmed: a run of white space is taken off each end and none is
    left there.  The examples of the specification hold, tabs, line ends
    and no-break spaces at the ends are trimmed, and only the letters A-Z
    of ASCII text change case. *)
Theorem create_participant_id_normalizes `{Unicode} :
  (forall (number : Type) (name : cell number),
      create_participant_id name = normalize_name name)
  /\ (forall (number : Type) (s : string),
      match create_participant_id (@Str number s) with
      | Some key =>
          starts_clean key /\ ends_clean key
          /\ trimmed_of (normalize_chars (str_lower s)) key
      | None => False
      end)
  /\ (forall (number : Type) (n : number), create_participant_id (Num n) = None)
  /\ create_participant_id (@NA Z) = None
  /\ create_participant_id (@Str Z "Smith, John") = Some "smith-john"
  /\ create_participant_id (Num 123%Z) = None
  /\ create_participant_id
       (@Str Z (String "009" "Smith, John" +:+ String "010" (String "013" "")))
     = Some "smith-john"
  /\ create_participant_id (@Str Z " O'Neil Jr., Mary/Ann  ") = Some "o'neiljr-maryann"
  /\ create_participant_id (@Str Z "@AZ[`az{") = Some "@az[`az{"
  /\ PyStr.strip ("smith-john" +:+ String "194" (String "160" "")) = "smith-john"
  /\ PyStr.strip (String "227" (String "128" (String "128" "a b"))
                  +:+ String "194" (String "133" " "))
     = "a b"
  /\ PyStr.strip (String "194" (String "161" "x")) = String "194" (String "161" "x").
Proof.
  split; [| split; [| repeat split]]; try eval_ascii.
  - intros number [|s|n]; [done | | done].
    by rewrite create_participant_id_text.
  - intros number s. rewrite create_participant_id_text. apply strip_spec.
Qed.

(** C3: [find_column_by_keywords] returns the first header, in the order
    of the headers, that equals a keyword (exact) or contains one
    (otherwise), both upper-cased, and nothing exactly when no header
    qualifies.  The examples of the specification hold; with [exact] a
    header that only contains the keyword is not returned. *)
Theorem find_column_by_keywords_first_match `{Unicode} :
  (forall (headers keywords : list string) (exact : bool),
      match find_column_by_keywords headers keywords exact with
      | Some header =>
          exists before after, headers = before ++ header :: after
            /\ qualifies exact keywords header
            /\ Forall (fun h => ~ qualifies exact keywords h) before
      | None => Forall (fun h => ~ qualifies exact keywords h) headers
      end)
  /\ find_column_by_keywords ["Charge Date"; "MHC Status"] ["CHARGE DATE"] true
     = Some "Charge Date"
  /\ find_column_by_keywords ["Charge Date"] ["DATE"] false = Some "Charge Date"
  /\ find_column_by_keywords ["X"; "Y"] ["Z"] false = None
  /\ find_column_by_keywords ["Charge Date"] ["DATE"] true = None
  /\ find_column_by_keywords ["MHC Charge Date"; "charge date"; "Charge Date"]
       ["Charge Date"] true
     = Some "charge date"
  /\ find_column_by_keywords ["`{"; "az"] ["AZ"; "@["] false = Some "az".
Proof.
  split; [apply find_column_first | repeat split; eval_ascii].
Qed.

(** ** Frames *)

Section FrameFacts.
Context `{Unicode} `{Pandas}.

Lemma map_fmap {A B} (f : A -> B) (l : list A) : map f l = f <$> l.
Proof. reflexivity. Qed.

Lemma getcol_insert (r : Row) (c c' : string) (v : Cell) :
  getcol (<[c := v]> r) c' = if decide (c = c') then v else getcol r c'.
Proof.
  unfold getcol. rewrite lookup_insert. by destruct (decide (c = c')).
Qed.

Lemma getcol_insert_eq (r : Row) (c : string) (v : Cell) :
  getcol (<[c := v]> r) c = v.
Proof. rewrite getcol_insert. by rewrite decide_True. Qed.

Lemma getcol_insert_ne (r : Row) (c c' : string) (v : Cell) :
  c ≠ c' -> getcol (<[c := v]> r) c' = getcol r c'.
Proof. intros Hne. rewrite getcol_insert. by rewrite decide_False. Qed.

Lemma getcol_restrict (cols : list string) (r : Row) (c : string) :
  getcol (restrict cols r) c = if decide (c ∈ cols) then getcol r c else NA.
Proof.
  unfold getcol, restrict.
  destruct (decide (c ∈ cols)) as [Hin|Hout].
  - destruct (r !! c) as [v|] eqn:E.
    + by rewrite (map_lookup_filter_Some_2 _ _ _ v).
    + assert (filter (fun kv : string * Cell => kv.1 ∈ cols) r !! c = None) as ->; [|done].
      apply map_lookup_filter_None. by left.
  - assert (filter (fun kv : string * Cell => kv.1 ∈ cols) r !! c = None) as ->; [|done].
    apply map_lookup_filter_None. right. intros v _. done.
Qed.

Lemma getcol_restrict_in (cols : list string) (r : Row) (c : string) :
  c ∈ cols -> getcol (restrict cols r) c = getcol r c.
Proof. intros Hin. rewrite getcol_restrict. by rewrite decide_True. Qed.

Lemma rows_assign (df : DataFrame) (c : string) (f : Row -> Cell) :
  rows (assign df c f) = map (fun r => <[c := f r]> r) (rows df).
Proof.
  unfold assign, set_column. cbn [rows].
  apply list_eq. intros i.
  rewrite (map_fmap (fun r => <[c := f r]> r)), (map_fmap f).
  rewrite list_lookup_imap, !list_lookup_fmap.
  by destruct (rows df !! i) as [r|] eqn:E.
Qed.

Lemma columns_set_column (df : DataFrame) (c : string) (vals : list Cell) (c' : string) :
  c' ∈ columns (set_column df c vals) <-> c' ∈ columns df \/ c' = c.
Proof.
  unfold set_column. cbn [columns]. case_bool_decide as Hin.
  - split; [by left | intros [?| ->]; done].
  - rewrite elem_of_app, list_elem_of_singleton. done.
Qed.

Lemma set_optional_set_column (df : DataFrame) (c : string) (src : option string)
    (vals : string -> list Cell) :
  exists vals', set_optional df c src vals = set_column df c vals'.
Proof.
  unfold set_optional, assign. destruct src as [[|a s]|]; eauto.
Qed.

Lemma col_all_set_column_ne P c c' df vals :
  c ≠ c' -> col_all P c df -> col_all P c (set_column df c' vals).
Proof.
  unfold col_all, set_column. cbn [rows]. intros Hne Hall.
  apply List.Forall_forall. intros r' Hin.
  rewrite <- list_elem_of_In in Hin.
  apply elem_of_lookup_imap in Hin as [i [r [-> Hr]]].
  rewrite getcol_insert_ne by done.
  rewrite List.Forall_forall in Hall. apply Hall, list_elem_of_In.
  by eapply list_elem_of_lookup_2.
Qed.

Lemma col_all_assign_ne P c c' df f :
  c ≠ c' -> col_all P c df -> col_all P c (assign df c' f).
Proof. apply col_all_set_column_ne. Qed.

Lemma col_all_assign_eq (P : Cell -> Prop) c df f :
  (forall r, P (f r)) -> col_all P c (assign df c f).
Proof.
  intros Hf. unfold col_all. rewrite rows_assign. apply List.Forall_forall.
  intros r' Hin. apply in_map_iff in Hin as [r [<- _]].
  by rewrite getcol_insert_eq.
Qed.

Lemma col_all_set_optional_ne P c c' df src vals :
  c ≠ c' -> col_all P c df -> col_all P c (set_optional df c' src vals).
Proof.
  intros Hne Hall. destruct (set_optional_set_column df c' src vals) as [v ->].
  by apply col_all_set_column_ne.
Qed.

Lemma select_inv cols df w s :
  select cols df = (w, s) ->
  w = [] /\
  ((exists c, c ∈ cols /\ (c ∉ columns df) /\ s = Raise (KeyError c))
   \/ (Forall (fun c => c ∈ columns df) cols
       /\ s = Next {| columns := cols; rows := map (restrict cols) (rows df) |})).
Proof.
  unfold select.
  destruct (find _ cols) as [c|] eqn:E; intros [= <- <-]; (split; [done |]).
  - left. exists c. apply find_some in E as [Hin Hc].
    apply negb_true_iff, bool_decide_eq_false in Hc.
    by rewrite <- list_elem_of_In in Hin.
  - right. split; [|done]. apply List.Forall_forall. intros c Hin.
    eapply find_none in E; [|done].
    by apply negb_false_iff, bool_decide_eq_true in E.
Qed.

Lemma col_all_restrict P c cols (df : DataFrame) :
  c ∈ cols -> col_all P c df ->
  col_all P c {| columns := cols; rows := map (restrict cols) (rows df) |}.
Proof.
  unfold col_all. cbn [rows]. intros Hin Hall. apply List.Forall_forall.
  intros r' Hr'. apply in_map_iff in Hr' as [r [<- Hr]].
  rewrite getcol_restrict_in by done.
  rewrite List.Forall_forall in Hall. by apply Hall.
Qed.

Lemma col_all_filter_rows P c keep df :
  col_all P c df -> col_all P c (filter_rows keep df).
Proof.
  unfold col_all, filter_rows. cbn [rows]. rewrite !List.Forall_forall.
  intros Hall r Hin. apply filter_In in Hin as [Hin _]. by apply Hall.
Qed.

Lemma col_all_dropna P c subset df :
  col_all P c df -> col_all P c (dropna subset df).
Proof. apply col_all_filter_rows. Qed.

Lemma dropna_notna c subset df :
  c ∈ subset -> col_all (fun v => v ≠ NA) c (dropna subset df).
Proof.
  intros Hc. unfold col_all, dropna, filter_rows. cbn [rows].
  apply List.Forall_forall. intros r Hin. apply filter_In in Hin as [_ Hkeep].
  rewrite forallb_forall in Hkeep. rewrite list_elem_of_In in Hc.
  specialize (Hkeep c Hc). by destruct (getcol r c).
Qed.

Lemma drop_duplicates_go_sub cols seen (l : list Row) r :
  In r (drop_duplicates_go cols seen l) -> In r l.
Proof.
  revert seen. induction l as [|x l IH]; intros seen; cbn [drop_duplicates_go]; [done |].
  case_bool_decide.
  - intros Hin. right. by eapply IH.
  - intros [->|Hin]; [by left | right; by eapply IH].
Qed.

Lemma col_all_drop_duplicates P c subset df :
  col_all P c df -> col_all P c (drop_duplicates subset df).
Proof.
  unfold col_all, drop_duplicates. cbn [rows]. rewrite !List.Forall_forall.
  intros Hall r Hin. by apply Hall, (drop_duplicates_go_sub subset []).
Qed.

Lemma getcol_rename_row old new (r : Row) c :
  c ≠ old -> c ≠ new -> getcol (rename_row old new r) c = getcol r c.
Proof.
  intros Ho Hn. unfold rename_row. destruct (r !! old) as [v|]; [|done].
  rewrite getcol_insert_ne by done. unfold getcol.
  by rewrite lookup_delete_ne.
Qed.

Lemma col_all_rename_column P c old new df :
  c ≠ old -> c ≠ new -> col_all P c df -> col_all P c (rename_column old new df).
Proof.
  unfold col_all, rename_column. cbn [rows]. rewrite !List.Forall_forall.
  intros Ho Hn Hall r' Hin. apply in_map_iff in Hin as [r [<- Hr]].
  rewrite getcol_rename_row by done. by apply Hall.
Qed.

Lemma col_all_concat P c cols (frames : list DataFrame) :
  Forall (col_all P c) frames -> col_all P c (concat cols frames).
Proof.
  unfold col_all, concat. cbn [rows]. rewrite !List.Forall_forall.
  intros Hall r Hin. apply in_flat_map in Hin as [df [Hdf Hr]].
  specialize (Hall df Hdf). rewrite List.Forall_forall in Hall. by apply Hall.
Qed.

End FrameFacts.

(** ** The writes of an extractor *)

Section LoadFacts.
Context `{Unicode} `{Pandas}.

Lemma in_bind_writes {A B} (m : Load A) (k : A -> Load B) p :
  In p (m ≫= k).1 -> In p m.1 \/ exists a, m.2 = Next a /\ In p (k a).1.
Proof.
  unfold mbind, load_mbind, load_bind. destruct m as [w [a| |e]]; cbn [fst snd].
  - destruct (k a) as [w' s'] eqn:E. cbn [fst]. rewrite in_app_iff.
    intros [Hin|Hin]; [by left | right]. exists a. by rewrite E.
  - by left.
  - by left.
Qed.

Lemma read_or_return_inv {A} (f : csv A) p :
  ~ In p (read_or_return f).1.
Proof. destruct f; cbn; tauto. Qed.

Lemma read_or_return_next {A} (f : csv A) a :
  (read_or_return f).2 = Next a -> f = Csv a.
Proof. destruct f; cbn; congruence. Qed.

Lemma select_writes cols df p : ~ In p (select cols df).1.
Proof.
  destruct (select cols df) as [w s] eqn:E.
  apply select_inv in E as [-> _]. cbn. tauto.
Qed.

Lemma select_next cols df df' :
  (select cols df).2 = Next df' ->
  Forall (fun c => c ∈ columns df) cols
  /\ df' = {| columns := cols; rows := map (restrict cols) (rows df) |}.
Proof.
  destruct (select cols df) as [w s] eqn:E. cbn [snd]. intros ->.
  apply select_inv in E as [_ [[c [_ [_ ?]]] | [? ?]]]; [done |].
  split; [done | congruence].
Qed.

Lemma col_all_select P c cols df df' :
  (select cols df).2 = Next df' -> c ∈ cols -> col_all P c df -> col_all P c df'.
Proof.
  intros Hsel Hin Hall. apply select_next in Hsel as [_ ->].
  by apply col_all_restrict.
Qed.

Lemma to_sql_inv name df p : In p (to_sql name df).1 -> p = (name, df).
Proof. cbn. by intros [<-|[]]. Qed.

End LoadFacts.

(** Takes apart [In p (fst load)] for a run built from binds. *)
Ltac load_step H :=
  lazymatch type of H with
  | In _ (fst (mbind _ _)) =>
      let a := fresh "df" in
      let Ha := fresh "Hnext" in
      apply in_bind_writes in H as [H | [a [Ha H]]];
      [ first [ by apply read_or_return_inv in H
              | by apply select_writes in H
              | idtac ]
      | idtac ]
  | In _ (fst ret) => destruct H
  | In _ (fst (raise _)) => destruct H
  | In _ (fst (next _)) => destruct H
  | In _ (fst (to_sql _ _)) => apply to_sql_inv in H
  | In _ (fst (match ?x with _ => _ end)) => destruct x eqn:?
  | In _ (fst (if ?b then _ else _)) => destruct b eqn:?
  end.

(** ** Columns carried from frame to frame *)

Section ColumnFacts.
Context `{Unicode} `{Pandas}.

Lemma same_column_refl c D : same_column c D D.
Proof. split; intros r Hr; by exists r. Qed.

Lemma same_column_trans c D1 D2 D3 :
  same_column c D1 D2 -> same_column c D2 D3 -> same_column c D1 D3.
Proof.
  intros [H12 H21] [H23 H32]. split.
  - intros r3 Hr3. destruct (H23 r3 Hr3) as [r2 [Hr2 E2]].
    destruct (H12 r2 Hr2) as [r1 [Hr1 E1]]. exists r1. split; [done | congruence].
  - intros r1 Hr1. destruct (H21 r1 Hr1) as [r2 [Hr2 E2]].
    destruct (H32 r2 Hr2) as [r3 [Hr3 E3]]. exists r3. split; [done | congruence].
Qed.

(** A frame whose rows are the images of the rows of [D] under a map that
    keeps column [c]. *)
Lemma same_column_map c D cols (f : Row -> Row) :
  (forall r, getcol (f r) c = getcol r c) ->
  same_column c D {| columns := cols; rows := map f (rows D) |}.
Proof.
  intros Hf. split; cbn [rows].
  - intros r' Hr'. apply in_map_iff in Hr' as [r [<- Hr]]. by exists r.
  - intros r Hr. exists (f r). split; [by apply in_map | done].
Qed.

Lemma same_column_set_column c c' D vals :
  c ≠ c' -> same_column c D (set_column D c' vals).
Proof.
  intros Hne. unfold set_column. split; cbn [rows].
  - intros r' Hr'. rewrite <- list_elem_of_In in Hr'.
    apply elem_of_lookup_imap in Hr' as [i [r [-> Hr]]].
    exists r. split; [| by rewrite getcol_insert_ne].
    apply list_elem_of_In. by eapply list_elem_of_lookup_2.
  - intros r Hr. rewrite <- list_elem_of_In in Hr.
    apply list_elem_of_lookup in Hr as [i Hr].
    exists (<[c' := default NA (vals !! i)]> r). split; [| by rewrite getcol_insert_ne].
    apply list_elem_of_In, elem_of_lookup_imap. by exists i, r.
Qed.

Lemma same_column_assign c c' D f :
  c ≠ c' -> same_column c D (assign D c' f).
Proof. apply same_column_set_column. Qed.

Lemma same_column_select c cols D D' :
  (select cols D).2 = Next D' -> c ∈ cols -> same_column c D D'.
Proof.
  intros Hsel Hc. apply select_next in Hsel as [_ ->].
  apply same_column_map. intros r. by apply getcol_restrict_in.
Qed.

Lemma same_column_rename c old new D :
  c ≠ old -> c ≠ new -> same_column c D (rename_column old new D).
Proof.
  intros Ho Hn. apply same_column_map. intros r. by apply getcol_rename_row.
Qed.

(** *** The left join *)

Lemma getcol_foldr_insert (lab : string -> string) (val : string -> Cell)
    (base : Row) (cols : list string) (k c0 : string) :
  In c0 cols -> lab c0 = k ->
  (forall c', In c' cols -> lab c' = k -> c' = c0) ->
  getcol (foldr (fun c acc => <[lab c := val c]> acc) base cols) k = val c0.
Proof.
  induction cols as [|c cols IH]; [done |]. cbn [foldr].
  intros Hin Hlab Huniq. rewrite getcol_insert.
  destruct (decide (lab c = k)) as [Hk|Hk].
  - f_equal. apply Huniq; [by left | done].
  - destruct Hin as [->|Hin]; [done |].
    apply IH; [done.. |]. intros c' Hc'. apply Huniq. by right.
Qed.

Lemma getcol_merged_row left right on l o c :
  In c (columns left) ->
  left_label left right on c = c ->
  (forall c', In c' (columns left) -> left_label left right on c' = c -> c' = c) ->
  getcol (merged_row left right on l o) c = getcol l c.
Proof.
  intros Hin Hlab Huniq. unfold merged_row.
  by apply (getcol_foldr_insert (left_label left right on) (getcol l)).
Qed.

Lemma merge_left_rows left right on m :
  In m (rows (merge_left left right on)) <->
  exists l o, In l (rows left) /\ m = merged_row left right on l o
    /\ match o with
       | Some r => In r (rows right)
                   /\ map (getcol l) on = map (getcol r) on
       | None => forall r, In r (rows right) -> map (getcol l) on ≠ map (getcol r) on
       end.
Proof.
  unfold merge_left. cbn [rows]. rewrite in_flat_map. split.
  - intros [l [Hl Hm]]. exists l.
    destruct (List.filter _ (rows right)) as [|r0 ms] eqn:E.
    + destruct Hm as [<-|[]]. exists None. split; [done |]. split; [done |].
      intros r Hr Heq.
      assert (In r (List.filter
                      (fun r => bool_decide (map (getcol l) on = map (getcol r) on))
                      (rows right))) as Hin
        by (apply filter_In; split; [done | by apply bool_decide_eq_true]).
      by rewrite E in Hin.
    + apply in_map_iff in Hm as [r [<- Hr]]. exists (Some r).
      split; [done |]. split; [done |]. rewrite <- E in Hr.
      apply filter_In in Hr as [Hr Heq]. by apply bool_decide_eq_true in Heq.
  - intros [l [o [Hl [-> Ho]]]]. exists l. split; [done |].
    destruct o as [r|].
    + destruct Ho as [Hr Heq].
      assert (In r (List.filter
                      (fun r => bool_decide (map (getcol l) on = map (getcol r) on))
                      (rows right))) as Hin
        by (apply filter_In; split; [done | by apply bool_decide_eq_true]).
      destruct (List.filter _ (rows right)) as [|r0 ms]; [done |].
      by apply (in_map (fun r => merged_row left right on l (Some r))).
    + destruct (List.filter _ (rows right)) as [|r0 ms] eqn:E; [by left |].
      assert (In r0 (r0 :: ms)) as Hin by (by left). rewrite <- E in Hin.
      apply filter_In in Hin as [Hr Heq]. apply bool_decide_eq_true in Heq.
      by destruct (Ho r0 Hr).
Qed.

Lemma same_column_merge_left c left right on :
  In c (columns left) ->
  left_label left right on c = c ->
  (forall c', In c' (columns left) -> left_label left right on c' = c -> c' = c) ->
  same_column c left (merge_left left right on).
Proof.
  intros Hin Hlab Huniq. split.
  - intros m Hm. apply merge_left_rows in Hm as [l [o [Hl [-> _]]]].
    exists l. split; [done |]. by apply getcol_merged_row.
  - intros l Hl.
    destruct (List.filter
                (fun r => bool_decide (map (getcol l) on = map (getcol r) on))
                (rows right)) as [|r ms] eqn:E.
    + exists (merged_row left right on l None). split; [| by apply getcol_merged_row].
      apply merge_left_rows. exists l, None. split; [done |]. split; [done |].
      intros r Hr Heq.
      assert (In r (List.filter
                      (fun r => bool_decide (map (getcol l) on = map (getcol r) on))
                      (rows right))) as Hf
        by (apply filter_In; split; [done | by apply bool_decide_eq_true]).
      by rewrite E in Hf.
    + exists (merged_row left right on l (Some r)).
      split; [| by apply getcol_merged_row].
      apply merge_left_rows. exists l, (Some r). split; [done |]. split; [done |].
      assert (In r (r :: ms)) as Hf by (by left). rewrite <- E in Hf.
      apply filter_In in Hf as [Hr Heq]. by apply bool_decide_eq_true in Heq.
Qed.

Lemma suffix_x_not_participant (c : string) : c +:+ "_x" ≠ "Participant_ID".
Proof.
  intros Heq.
  assert (PyStr.contains "_x" "Participant_ID" = true) as Hc.
  { apply contains_spec. exists c, "". by rewrite append_nil_r. }
  vm_compute in Hc. discriminate.
Qed.

Lemma left_label_participant left right on c :
  left_label left right on c = "Participant_ID" -> c = "Participant_ID".
Proof.
  unfold left_label. destruct (_ && _); [| done].
  intros Heq. by apply suffix_x_not_participant in Heq.
Qed.

End ColumnFacts.

(** ** No row without a participant *)

Section NoOrphans.
Context `{Unicode} `{Pandas}.

Lemma risk_writes file name T :
  In (name, T) (load_risk_assessments file).1 ->
  name = "RISK_ASSESSMENT" /\ has_participant T.
Proof.
  unfold load_risk_assessments. intros Hin.
  load_step Hin. load_step Hin; [| load_step Hin].
  cbv zeta in Hin. load_step Hin. load_step Hin.
  injection Hin as -> ->. split; [done |].
  apply dropna_notna. apply list_elem_of_here.
Qed.

Lemma mental_health_writes file name T :
  In (name, T) (load_mental_health_data file).1 ->
  name = "PARTICIPANT_DIAGNOSIS" /\ has_participant T.
Proof.
  unfold load_mental_health_data. intros Hin.
  load_step Hin. load_step Hin; [| load_step Hin].
  cbv zeta in Hin. load_step Hin; [| load_step Hin].
  load_step Hin. load_step Hin.
  injection Hin as -> ->. split; [done |].
  apply dropna_notna. set_solver.
Qed.

Lemma jail_writes file name T :
  In (name, T) (load_jail_data file).1 ->
  name = "JAIL_DATA" /\ has_participant T.
Proof.
  unfold load_jail_data. intros Hin.
  load_step Hin. load_step Hin; [| load_step Hin].
  cbv zeta in Hin. load_step Hin. load_step Hin.
  injection Hin as -> ->. split; [done |].
  apply dropna_notna. apply list_elem_of_here.
Qed.

Lemma psychosocial_writes file name T :
  In (name, T) (load_psychosocial_assessments file).1 ->
  name = "PSYCHOSOCIAL_ASSESSMENT" /\ has_participant T.
Proof.
  unfold load_psychosocial_assessments. intros Hin.
  load_step Hin. load_step Hin; [| load_step Hin].
  cbv zeta in Hin. load_step Hin. load_step Hin.
  injection Hin as -> ->. split; [done |].
  apply dropna_notna. apply list_elem_of_here.
Qed.

(** Every frame the loop over the treatment files appends. *)
Lemma treatment_of_file_inv file content df :
  treatment_of_file file content = Some df ->
  has_participant df
  /\ col_all (fun v => v = Str (treatment_type file)) "Treatment_Type" df.
Proof.
  unfold treatment_of_file. destruct content as [| |df0]; [done.. |].
  destruct (find_column_by_keywords _ _ _) as [name_col|]; [|done].
  cbv zeta.
  destruct (select _ _) as [w [sel| |e]] eqn:Hsel; [|done..].
  intros [= <-]. split; [apply dropna_notna, list_elem_of_here |].
  apply col_all_dropna.
  eapply col_all_select; [by rewrite Hsel | set_solver |].
  do 5 (apply col_all_set_optional_ne; [done |]).
  by apply col_all_assign_eq.
Qed.

Lemma treatment_writes files name T :
  In (name, T) (load_treatment_episodes files).1 ->
  name = "TREATMENT_EPISODE" /\ has_participant T
  /\ exists frames,
      T = concat treatment_cols frames
      /\ Forall (fun df => exists file, In file treatment_files
                   /\ treatment_of_file file (files file) = Some df) frames.
Proof.
  unfold load_treatment_episodes. cbv zeta.
  set (frames := omap _ treatment_files).
  assert (Forall (fun df => exists file, In file treatment_files
                   /\ treatment_of_file file (files file) = Some df) frames) as Hframes.
  { apply List.Forall_forall. intros df Hdf. rewrite <- list_elem_of_In in Hdf.
    apply list_elem_of_omap in Hdf as [file [Hfile Hdf]].
    exists file. by rewrite <- list_elem_of_In. }
  destruct frames as [|df0 rest] eqn:E; [intros [] |].
  intros Hin. apply to_sql_inv in Hin. injection Hin as -> ->.
  split; [done |]. split; [| by eexists].
  apply col_all_concat. eapply Forall_impl; [exact Hframes |].
  intros df [file [_ Hdf]]. by apply treatment_of_file_inv in Hdf as [? _].
Qed.

End NoOrphans.

(** ** Jail stays *)

Section JailFacts.
Context `{Unicode} `{Pandas}.

Lemma columns_set_optional df c src vals c' :
  c' ∈ columns (set_optional df c src vals) <-> c' ∈ columns df \/ c' = c.
Proof.
  destruct (set_optional_set_column df c src vals) as [v ->].
  apply columns_set_column.
Qed.

Lemma jail_clean_columns name_col df :
  "Start_Date" ∈ columns (jail_clean name_col df)
  /\ "End_Date" ∈ columns (jail_clean name_col df)
  /\ "Days_Incarcerated" ∈ columns (jail_clean name_col df).
Proof.
  unfold jail_clean, jail_columns. cbv zeta.
  rewrite !columns_set_optional. tauto.
Qed.

Lemma derive_days_empty_column clean :
  "Start_Date" ∈ columns clean -> "End_Date" ∈ columns clean ->
  forallb isna (col_values clean "Days_Incarcerated") = true ->
  derive_days clean =
    set_column clean "Days_Incarcerated"
      (zip_with days_between (to_datetime (col_values clean "Start_Date"))
         (to_datetime (col_values clean "End_Date"))).
Proof.
  intros Hs He Hna. unfold derive_days. rewrite Hna, orb_true_r.
  by rewrite !bool_decide_eq_true_2.
Qed.

Lemma date_at_lookup dates i d : date_at dates i = Some d -> dates !! i = Some (Some d).
Proof. unfold date_at. destruct (dates !! i) as [[x|]|]; congruence. Qed.

Lemma jail_written df name_col T :
  find_column_by_keywords (columns df) ["NAME"; "PARTICIPANT"] false = Some name_col ->
  In ("JAIL_DATA", T) (load_jail_data (Csv df)).1 ->
  T = dropna ["Participant_ID"]
        {| columns := jail_cols;
           rows := map (restrict jail_cols) (rows (derive_days (jail_clean name_col df))) |}.
Proof.
  intros Hname Hin. unfold load_jail_data in Hin.
  load_step Hin. apply read_or_return_next in Hnext. injection Hnext as <-.
  rewrite Hname in Hin. cbv zeta in Hin.
  load_step Hin. apply select_next in Hnext as [_ ->].
  load_step Hin. by injection Hin as ->.
Qed.

End JailFacts.

(** C5, as amended: when no row of the jail file has a days value of its
    own (the days column is not resolved, or none of its values is
    numeric), every row with a participant whose normalized start and end
    dates parse is written with [Days_Incarcerated] equal to the end date
    minus the start date in whole days, a negative difference included. *)
Theorem jail_days_derived_when_column_empty `{Unicode} `{Pandas}
    (df T : DataFrame) (name_col : string) (i : nat) :
  find_column_by_keywords (columns df) ["NAME"; "PARTICIPANT"] false = Some name_col ->
  In ("JAIL_DATA", T) (load_jail_data (Csv df)).1 ->
  forallb isna (col_values (jail_clean name_col df) "Days_Incarcerated") = true ->
  jail_row_derived df T name_col i.
Proof.
  intros Hname Hin Hempty r s e Hr Hpid _ Hs He.
  apply (jail_written df name_col T Hname) in Hin. subst T.
  destruct (jail_clean_columns name_col df) as [Hcs [Hce _]].
  rewrite (derive_days_empty_column _ Hcs Hce Hempty).
  set (clean := jail_clean name_col df) in *.
  apply date_at_lookup in Hs, He.
  set (days := zip_with days_between _ _).
  assert (days !! i = Some (Num (of_int ((e - s) / day_ns)))) as Hdays.
  { unfold days. rewrite lookup_zip_with, Hs, He. done. }
  set (r2 := <["Days_Incarcerated" := Num (of_int ((e - s) / day_ns))]> r).
  assert (In r2 (rows (set_column clean "Days_Incarcerated" days))) as Hr2.
  { unfold set_column. cbn [rows]. apply list_elem_of_In, elem_of_lookup_imap.
    exists i, r. split; [| done]. by rewrite Hdays. }
  exists (restrict jail_cols r2).
  assert (forall c, c ∈ jail_cols -> c ≠ "Days_Incarcerated" ->
                    getcol (restrict jail_cols r2) c = getcol r c) as Hsame.
  { intros c Hc Hne. rewrite getcol_restrict_in by done.
    unfold r2. by rewrite getcol_insert_ne. }
  split; [| repeat split].
  - unfold dropna, filter_rows. cbn [rows]. apply filter_In. split.
    + by apply in_map.
    + cbn [forallb]. rewrite Hsame by (done || set_solver).
      destruct (getcol r "Participant_ID"); done.
  - apply Hsame; [set_solver | done].
  - apply Hsame; [set_solver | done].
  - apply Hsame; [set_solver | done].
  - rewrite getcol_restrict_in by set_solver. unfold r2. by rewrite getcol_insert_eq.
Qed.

(** ** Roster and enrollment *)

Section Roster.
Context `{Unicode} `{Pandas}.

Lemma roster_writes roster demographics name T :
  In (name, T) (load_participants_and_enrollment roster demographics).1 ->
  name = "PARTICIPANT" \/ (name = "MHC_ENROLLMENT" /\ has_participant T).
Proof.
  unfold load_participants_and_enrollment. intros Hin.
  load_step Hin. load_step Hin.
  load_step Hin; [load_step Hin |]. cbv zeta in Hin.
  load_step Hin; [load_step Hin |].
  load_step Hin. load_step Hin.
  load_step Hin; [load_step Hin |].
  load_step Hin; [load_step Hin |].
  load_step Hin. load_step Hin.
  { load_step Hin. injection Hin as -> _. by left. }
  load_step Hin. load_step Hin. load_step Hin.
  injection Hin as -> ->. right. split; [done |].
  eapply col_all_select; [done | set_solver |].
  apply dropna_notna. set_solver.
Qed.

End Roster.

(** ** Criminal charges *)

(** Carries [same_column c D _] through the frame operations. *)
Ltac same_column_step :=
  lazymatch goal with
  | |- same_column ?c ?D ?D => apply same_column_refl
  | |- same_column ?c ?D (set_column ?X _ _) =>
      apply (same_column_trans c D X); [| apply same_column_set_column; done]
  | |- same_column ?c ?D (assign ?X _ _) =>
      apply (same_column_trans c D X); [| apply same_column_assign; done]
  | |- same_column ?c ?D (rename_column _ _ ?X) =>
      apply (same_column_trans c D X); [| apply same_column_rename; done]
  | |- same_column ?c ?D (if ?b then _ else _) => destruct b
  end.

Section Charges.
Context `{Unicode} `{Pandas}.

Lemma pid_cell_text (s : string) : is_text (pid_cell (Str s)).
Proof. unfold pid_cell, create_participant_id. cbn. by eexists. Qed.

Lemma charge_participant_id_text last first r :
  is_text (charge_participant_id last first r).
Proof. apply pid_cell_text. Qed.

Lemma charge_participant_id_missing last first (r : Row) :
  getcol r last = NA -> getcol r first = NA ->
  charge_participant_id last first r = Str "nan-nan".
Proof.
  intros Hl Hf. unfold charge_participant_id, pid_cell. rewrite Hl, Hf.
  cbn [astype_str]. rewrite create_participant_id_ascii by reflexivity.
  vm_compute. reflexivity.
Qed.

Lemma optional_col_cases (o : option string) :
  optional_col o = [] \/ exists col, optional_col o = [col].
Proof. destruct o as [[|a s]|]; cbn; eauto. Qed.

Lemma charges_written file name T :
  In (name, T) (load_criminal_charges file).1 ->
  name = "CHARGE_OFFENSE"
  \/ (name = "PARTICIPANT_CHARGE"
      /\ exists df charge_date_col first_name_col last_name_col,
          file = Csv df
          /\ find_charge_date_col (columns df) = Some charge_date_col
          /\ charge_name_cols (columns df) = (Some first_name_col, Some last_name_col)
          /\ same_column "Participant_ID"
               (assign (filter_rows (fun r => notna (getcol r charge_date_col)) df)
                  "Participant_ID" (charge_participant_id last_name_col first_name_col))
               T).
Proof.
  unfold load_criminal_charges. intros Hin.
  load_step Hin. apply read_or_return_next in Hnext. subst file.
  destruct (find_charge_date_col (columns df)) as [cd|] eqn:Hcd; [| destruct Hin].
  cbv zeta in Hin.
  destruct (charge_name_cols (columns df)) as [[fn|] [ln|]] eqn:Hnames;
    try (destruct Hin; fail).
  destruct (exact_then (columns df) ["OFFENSE"] ["OFFENSE"]) as [off|];
    [| destruct Hin].
  destruct (exact_then (columns df) ["CLASS"] ["CLASS"]) as [cls|]; [| destruct Hin].
  set (D0 := assign (filter_rows (fun r => notna (getcol r cd)) df) "Participant_ID"
               (charge_participant_id ln fn)) in *.
  load_step Hin. rename df0 into pairs. rename Hnext into Hpairs.
  load_step Hin; [load_step Hin |].
  load_step Hin; [load_step Hin |].
  load_step Hin; [load_step Hin |].
  load_step Hin.
  load_step Hin. { load_step Hin. injection Hin as -> _. by left. }
  load_step Hin; [load_step Hin |].
  set (offenses := set_column _ "Offense_ID" _) in *.
  load_step Hin. rename df2 into sel. rename Hnext1 into Hsel.
  load_step Hin; [load_step Hin |].
  match goal with E : negb (bool_decide (NoDup _)) = false |- _ =>
    apply negb_false_iff, bool_decide_eq_true in E; rename E into Hnodup end.
  load_step Hin. rename Hnext1 into Hfinal.
  load_step Hin. injection Hin as -> ->. right. split; [done |].
  exists df, cd, fn, ln. do 3 (split; [done |]).
  (* the labels renamed are not [Participant_ID] *)
  apply NoDup_cons in Hnodup as [Hpid _].
  assert ("Participant_ID" ≠ cd) as Hne_cd by set_solver.
  assert (forall col, optional_col
             (exact_then (columns df) ["MHC STATUS"] ["MHC"; "STATUS"]) = [col] ->
           "Participant_ID" ≠ col) as Hne_mhc.
  { intros col E. rewrite E in Hpid. set_solver. }
  assert (forall col, optional_col
             (exact_then (columns df) ["NG/DISMISSED"] ["DISMISSED"; "OUTCOME"]) = [col] ->
           "Participant_ID" ≠ col) as Hne_out.
  { intros col E. rewrite E in Hpid. set_solver. }
  (* the join keeps the column *)
  assert (same_column "Participant_ID" D0 (merge_left D0 offenses [off; cls])) as Hmerge.
  { assert ("Participant_ID" ∈ columns D0) as HinD0.
    { unfold D0, assign. apply columns_set_column. by right. }
    apply same_column_merge_left.
    - by apply list_elem_of_In.
    - unfold left_label.
      destruct (bool_decide_reflect ("Participant_ID" ∈ columns offenses))
        as [Hright|Hright]; [| reflexivity].
      destruct (bool_decide_reflect ("Participant_ID" ∈ [off; cls]))
        as [Hon|Hon]; [reflexivity |]. exfalso. apply Hon.
      unfold offenses in Hright. apply select_next in Hpairs as [_ Hpairs].
      unfold assign in Hright.
      rewrite !columns_set_column in Hright. cbn [drop_duplicates columns] in Hright.
      rewrite Hpairs in Hright. cbn [columns] in Hright.
      destruct Hright as [[[?|?]|?]|?]; done.
    - intros c' _. apply left_label_participant. }
  eapply same_column_trans; [exact Hmerge |].
  eapply same_column_trans; [eapply same_column_select; [exact Hsel | set_solver] |].
  eapply same_column_trans; [| eapply same_column_select; [exact Hfinal | set_solver]].
  destruct (optional_col_cases
              (exact_then (columns df) ["MHC STATUS"] ["MHC"; "STATUS"]))
    as [Em|[mhc Em]];
  destruct (optional_col_cases
              (exact_then (columns df) ["NG/DISMISSED"] ["DISMISSED"; "OUTCOME"]))
    as [Eo|[out Eo]];
  rewrite ?Em, ?Eo; repeat same_column_step;
  try (apply same_column_trans with (rename_column cd "Charge_Date" sel));
  repeat first
    [ apply same_column_refl
    | apply same_column_rename; [first [done | by apply Hne_mhc | by apply Hne_out] | done]
    | match goal with
      | |- same_column ?c ?D (rename_column _ _ ?X) =>
          apply (same_column_trans c D X)
      end ].
Qed.

End Charges.

(** ** Diagnosis codes *)

Section CodeFacts.
Context `{Unicode} `{Pandas}.

Lemma filter_map_comm {A B} (f : A -> B) (p : B -> bool) (l : list A) :
  List.filter p (map f l) = map f (List.filter (fun x => p (f x)) l).
Proof.
  induction l as [|x l IH]; [done |]. cbn. destruct (p (f x)); cbn; by rewrite IH.
Qed.

Lemma drop_duplicates_go_spec cols (l : list Row) : forall seen r,
  In r (drop_duplicates_go cols seen l) <->
  exists pre post, l = pre ++ r :: post
    /\ ~ In (row_key cols r) seen /\ ~ In (row_key cols r) (map (row_key cols) pre).
Proof.
  induction l as [|x l IH]; intros seen r; cbn [drop_duplicates_go].
  - split; [done | intros [pre [post [Hl _]]]; by destruct pre].
  - fold (row_key cols x). case_bool_decide as Hseen.
    + rewrite list_elem_of_In in Hseen. rewrite IH. split.
      * intros [pre [post [-> [Hs Hp]]]]. exists (x :: pre), post.
        split; [done |]. split; [done |]. cbn [map In]. intros [Heq|Hin]; [|done].
        apply Hs. by rewrite <- Heq.
      * intros [pre [post [Hl [Hs Hp]]]]. destruct pre as [|y pre].
        -- injection Hl as -> ->. done.
        -- injection Hl as -> ->. exists pre, post. split; [done |].
           split; [done |]. intros Hin. apply Hp. by right.
    + rewrite list_elem_of_In in Hseen. cbn [In]. rewrite IH. split.
      * intros [->|[pre [post [-> [Hs Hp]]]]].
        -- exists [], l. split; [done |]. split; [done |]. intros [].
        -- exists (x :: pre), post. split; [done |].
           split; [intros Hin; apply Hs; by right |].
           cbn [map In]. intros [Heq|Hin]; [|done]. apply Hs. left. done.
      * intros [pre [post [Hl [Hs Hp]]]]. destruct pre as [|y pre].
        -- injection Hl as -> ->. by left.
        -- injection Hl as -> ->. right. exists pre, post. split; [done |].
           split.
           ++ intros [Heq|Hin]; [|done]. apply Hp. left. done.
           ++ intros Hin. apply Hp. by right.
Qed.

Lemma drop_duplicates_go_NoDup cols (l : list Row) : forall seen,
  NoDup (map (row_key cols) (drop_duplicates_go cols seen l)).
Proof.
  induction l as [|x l IH]; intros seen; cbn [drop_duplicates_go].
  - constructor.
  - fold (row_key cols x). case_bool_decide as Hseen; [apply IH |].
    cbn [map]. constructor; [| apply IH].
    intros Hin. rewrite list_elem_of_In in Hin.
    apply in_map_iff in Hin as [r [Hkey Hr]].
    apply drop_duplicates_go_spec in Hr as [_ [_ [_ [Hs _]]]].
    apply Hs. left. done.
Qed.

(** The entries of the frame before [drop_duplicates] are the union. *)
Lemma code_pair_entries i j df_data :
  map (fun r => (str_stripped (getcol r "Code"), str_stripped (getcol r "Description")))
    (rows (dropna ["Code"] (code_pair i j df_data)))
  = map (fun e => (Str e.1, Str e.2)) (code_entries i j df_data).
Proof.
  unfold dropna, filter_rows, code_pair, code_entries. cbn [rows].
  rewrite filter_map_comm, !map_map. 
  assert (forall r : list Cell,
             getcol (<["Code" := default NA (r !! i)]>
                       (<["Description" := default NA (r !! j)]> (∅ : Row))) "Code"
             = default NA (r !! i)) as Hcode.
  { intros r. unfold getcol. by rewrite lookup_insert_eq. }
  assert (forall r : list Cell,
             getcol (<["Code" := default NA (r !! i)]>
                       (<["Description" := default NA (r !! j)]> (∅ : Row))) "Description"
             = default NA (r !! j)) as Hdesc.
  { intros r. unfold getcol. rewrite lookup_insert_ne by done.
    by rewrite lookup_insert_eq. }
  erewrite filter_ext.
  2:{ intros r. cbn [forallb]. rewrite Hcode, andb_true_r. reflexivity. }
  apply map_ext. intros r. by rewrite Hcode, Hdesc.
Qed.

End CodeFacts.

Section CodeFacts2.
Context `{Unicode} `{Pandas}.

Lemma diagnosis_written raw T :
  In ("DIAGNOSIS_CODE", T) (load_diagnosis_codes (Csv raw)).1 ->
  exists df, T = drop_duplicates ["Code"] df
    /\ map entry_of (rows df) = map as_cells (code_union raw).
Proof.
  unfold load_diagnosis_codes. intros Hin.
  load_step Hin. apply read_or_return_next in Hnext. injection Hnext as <-.
  cbv zeta in Hin.
  load_step Hin; [load_step Hin |]. load_step Hin; [load_step Hin |].
  load_step Hin. injection Hin as ->.
  eexists. split; [reflexivity |].
  rewrite !rows_assign. unfold concat. cbn [rows flat_map].
  rewrite app_nil_r, !map_map. unfold code_union. rewrite !map_app.
  unfold as_cells. rewrite <- !code_pair_entries, <- !map_app.
  apply map_ext. intros r. unfold entry_of, str_stripped.
  rewrite getcol_insert_ne by done. rewrite !getcol_insert_eq.
  by rewrite getcol_insert_ne by done.
Qed.

End CodeFacts2.

(** C9: the diagnosis-code load takes the code/description pairs of
    columns 0-1 and of columns 4-5, in that order, and writes one row for
    each distinct code, holding the description of the first entry with
    that code. *)
Theorem diagnosis_codes_first_occurrence `{Unicode} `{Pandas} (raw : RawFrame) (T : DataFrame) :
  In ("DIAGNOSIS_CODE", T) (load_diagnosis_codes (Csv raw)).1 ->
  NoDup (map fst (table_entries T))
  /\ (forall code, In code (map fst (code_union raw))
                   <-> In (Str code) (map fst (table_entries T)))
  /\ (forall c d, In (c, d) (table_entries T)
                  <-> exists code desc, c = Str code /\ d = Str desc
                        /\ first_entry (code_union raw) code desc).
Proof.
  intros Hin. apply diagnosis_written in Hin as [df [-> HR]].
  unfold table_entries, drop_duplicates. cbn [rows]. fold entry_of.
  set (R := rows df) in *.
  set (dd := drop_duplicates_go ["Code"] [] R).
  assert (forall r, row_key ["Code"] r = [(entry_of r).1]) as Hkey by done.
  assert (forall c d, In (c, d) (map entry_of dd)
                  <-> exists code desc, c = Str code /\ d = Str desc
                        /\ first_entry (code_union raw) code desc) as Hiff.
  { intros c d. rewrite in_map_iff. split.
    - intros [r [Hr Hdd]]. apply drop_duplicates_go_spec in Hdd
        as [pre [post [-> [_ Hpre]]]].
      rewrite map_app in HR. cbn [map] in HR. symmetry in HR.
      apply map_eq_app in HR as [u1 [u2' [Hu [Hu1 Hu2]]]].
      apply map_eq_cons in Hu2 as [[code desc] [u2 [-> [He Hu2]]]].
      exists code, desc. unfold as_cells in He. cbn in He.
      rewrite Hr in He. injection He as <- <-. do 2 (split; [done |]).
      exists u1, u2. split; [done |]. intros Hcode. apply Hpre.
      rewrite Hkey, Hr. cbn [fst].
      apply in_map_iff in Hcode as [[c0 d0] [Hc0 Hin0]]. cbn in Hc0. subst c0.
      apply (in_map as_cells) in Hin0. rewrite Hu1 in Hin0.
      apply in_map_iff in Hin0 as [r0 [Hr0 Hin0]].
      apply in_map_iff. exists r0. split; [| done].
      rewrite Hkey, Hr0. done.
    - intros [code [desc [-> [-> [u1 [u2 [Hu Hfirst]]]]]]].
      rewrite Hu, map_app in HR. cbn [map] in HR.
      apply map_eq_app in HR as [pre [post' [-> [Hpre Hpost]]]].
      apply map_eq_cons in Hpost as [r [post [-> [Hr Hpost]]]].
      exists r. split; [done |]. apply drop_duplicates_go_spec.
      exists pre, post. split; [done |]. split; [intros [] |].
      intros Hin. apply Hfirst. apply in_map_iff in Hin as [r0 [Hk0 Hin0]].
      rewrite !Hkey, Hr in Hk0.
      apply (in_map entry_of) in Hin0. rewrite Hpre in Hin0.
      apply in_map_iff in Hin0 as [[c0 d0] [He0 Hin0]].
      rewrite <- He0 in Hk0. cbn in Hk0. injection Hk0 as ->.
      apply in_map_iff. by exists (code, d0). }
  split; [| split; [| exact Hiff]].
  - apply (NoDup_fmap_1 (fun c : Cell => [c])). rewrite <- !map_fmap, !map_map.
    apply (drop_duplicates_go_NoDup ["Code"] R []).
  - intros code. split.
    + intros Hcode.
      assert (exists desc, first_entry (code_union raw) code desc) as [desc Hfirst].
      { clear -Hcode. induction (code_union raw) as [|[c d] l IH] using rev_ind;
          [done |].
        rewrite map_app, in_app_iff in Hcode.
        destruct (in_dec string_dec code (map fst l)) as [Hl|Hl].
        - destruct (IH Hl) as [desc [pre [post [-> Hpre]]]].
          exists desc, pre, (post ++ [(c, d)]). by rewrite <- app_assoc.
        - destruct Hcode as [Hcode|[Hcode|[]]]; [done |]. cbn in Hcode. subst c.
          exists d, l, []. done. }
      apply in_map_iff. exists (Str code, Str desc). split; [done |].
      apply Hiff. by exists code, desc.
    + intros Hcode. apply in_map_iff in Hcode as [[c d] [Hc Hin]]. cbn in Hc. subst c.
      apply Hiff in Hin as [code' [desc [[= ->] [-> [pre [post [-> _]]]]]]].
      rewrite map_app, in_app_iff. right. by left.
Qed.

(** ** The loader on the example files *)

Import IsoPandas Examples.

Lemma first_table_written (run : Load unit) (name : string) :
  head (map fst run.1) = Some name -> In (name, first_table run) run.1.
Proof.
  unfold first_table. destruct run.1 as [|[n T] rest]; [done |].
  cbn. intros [= ->]. by left.
Qed.

Lemma jail_days_derived_when_column_empty_witness :
  jail_row_derived jail_no_days (first_table (load_jail_data (Csv jail_no_days)))
    "Participant Name" 1.
Proof.
  apply (jail_days_derived_when_column_empty jail_no_days
           (first_table (load_jail_data (Csv jail_no_days))) "Participant Name" 1).
  - vm_compute. reflexivity.
  - apply first_table_written. vm_compute. reflexivity.
  - vm_compute. reflexivity.
Defined.

Example jail_no_days_table :
  cells_of (first_table (load_jail_data (Csv jail_no_days)))
  = [[Str "smith-john"; Str "2024-01-10"; Str "2024-01-15"; Num 5%Z; NA];
     [Str "doe-jane"; Str "2024-03-04"; Str "2024-03-01"; Num (-3)%Z; NA]].
Proof. vm_compute. reflexivity. Qed.

(** C5, as stated, fails: the file [jail_mixed] has a days value for the
    first stay only; the second stay has a participant and two dates that
    parse, and is written with no [Days_Incarcerated]. *)
Lemma jail_days_not_derived_row_by_row :
  find_column_by_keywords (columns jail_mixed) ["NAME"; "PARTICIPANT"] false
  = Some "Participant Name"
  /\ In ("JAIL_DATA", first_table (load_jail_data (Csv jail_mixed)))
        (load_jail_data (Csv jail_mixed)).1
  /\ cells_of (first_table (load_jail_data (Csv jail_mixed)))
     = [[Str "smith-john"; Str "2024-01-10"; Str "2024-01-15"; Num 5%Z; NA];
        [Str "doe-jane"; Str "2024-03-01"; Str "2024-03-04"; NA; NA]]
  /\ ~ jail_row_derived jail_mixed (first_table (load_jail_data (Csv jail_mixed)))
         "Participant Name" 1.
Proof.
  split; [vm_compute; reflexivity |].
  split; [apply first_table_written; vm_compute; reflexivity |].
  split; [vm_compute; reflexivity |].
  intros Hclaim.
  set (T := first_table (load_jail_data (Csv jail_mixed))) in *.
  set (clean := jail_clean "Participant Name" jail_mixed) in *.
  assert (map (fun r => (getcol r "Participant_ID", getcol r "Days_Incarcerated"))
            (rows clean)
          = [(Str "smith-john", Num 5%Z); (Str "doe-jane", NA)]) as Hclean
    by (vm_compute; reflexivity).
  assert (map (fun r => (getcol r "Participant_ID", getcol r "Days_Incarcerated"))
            (rows T)
          = [(Str "smith-john", Num 5%Z); (Str "doe-jane", NA)]) as HT
    by (vm_compute; reflexivity).
  destruct (rows clean !! 1) as [r|] eqn:Hr.
  2:{ apply lookup_ge_None in Hr.
      erewrite <- length_map, Hclean in Hr. cbn [length] in Hr. lia. }
  assert ((getcol r "Participant_ID", getcol r "Days_Incarcerated")
          = (Str "doe-jane", NA)) as Hcells.
  { apply (f_equal (fun l => l !! 1)) in Hclean.
    rewrite map_fmap, list_lookup_fmap, Hr in Hclean. cbn in Hclean.
    by injection Hclean as -> ->. }
  injection Hcells as Hpid Hdays.
  destruct (Hclaim r (days_from_civil 2024 3 1 * day_ns)%Z
                     (days_from_civil 2024 3 4 * day_ns)%Z Hr)
    as [r' [Hin [Hpid' [_ [_ Hdays']]]]].
  - by rewrite Hpid.
  - done.
  - vm_compute. reflexivity.
  - vm_compute. reflexivity.
  - apply (in_map (fun r => (getcol r "Participant_ID", getcol r "Days_Incarcerated")))
      in Hin.
    rewrite HT, Hpid', Hdays', Hpid in Hin.
    destruct Hin as [Heq|[Heq|[]]]; [discriminate Heq |].
    vm_compute in Heq. discriminate Heq.
Qed.

Lemma diagnosis_codes_first_occurrence_witness :
  let T := first_table (load_diagnosis_codes (Csv codes_overlap)) in
  NoDup (map fst (table_entries T))
  /\ (forall code, In code (map fst (code_union codes_overlap))
                   <-> In (Str code) (map fst (table_entries T)))
  /\ (forall c d, In (c, d) (table_entries T)
                  <-> exists code desc, c = Str code /\ d = Str desc
                        /\ first_entry (code_union codes_overlap) code desc).
Proof.
  apply (diagnosis_codes_first_occurrence codes_overlap
           (first_table (load_diagnosis_codes (Csv codes_overlap)))).
  apply first_table_written. vm_compute. reflexivity.
Defined.

Example codes_overlap_table :
  cells_of (first_table (load_diagnosis_codes (Csv codes_overlap)))
  = [[Str "F32"; Str "Depression"]; [Str "F10"; Str "Alcohol use"];
     [Str "F99"; Str "nan"]].
Proof. vm_compute. reflexivity. Qed.

